(** * Verification of the earth-analytics tutorial notebooks

    Shallow embedding of the code cells of
    - [python/Convert_lsat_pathrow_latlon.ipynb]  (module [Lsat]),
    - [python/Ipyparallel_tutorial.ipynb]         (module [Ipp]),
    - [python/smap_to_raster.ipynb]               (module [Smap]).

    The notebooks are glue over third-party libraries (ogr, shapely, h5py,
    numpy, gdal, ipyparallel).  The cells themselves are embedded line by
    line; the library calls they make are either section variables (geometry
    predicates, float arithmetic, the naming of files) or small documented
    models (feature lookup by index, the HDF5 reader, the GTiff driver). *)

From stdpp Require Import base list strings gmap pretty.
From Equations Require Import Equations.
From Stdlib Require Import ZArith QArith Lia Ascii.

Local Open Scope string_scope.
Local Open Scope list_scope.
Local Open Scope Z_scope.

(** ** Python exceptions and the error monad

    None of the cells has a [try]; an exception raised by a library call
    ends the cell. *)

Inductive exn : Type :=
| AttributeError   (* method call or attribute access on [None] *)
| IndexError       (* tuple / list index out of range *)
| TypeError        (* arithmetic on [None], wrong argument type *)
| ValueError       (* numpy reduction of an empty array, bad array rank *)
| OverflowError    (* Python int too large for a C int argument *)
| OSError.         (* file cannot be opened *)

Inductive result (A : Type) : Type :=
| Ok (a : A)
| Raised (e : exn).
Arguments Ok {A} a.
Arguments Raised {A} e.

Definition rbind {A B} (r : result A) (k : A -> result B) : result B :=
  match r with
  | Ok a => k a
  | Raised e => Raised e
  end.

Notation "'let?' x := e 'in' k" := (rbind e (fun x => k))
  (at level 10, x name, e at level 100, k at level 200).

Definition is_Ok {A} (r : result A) : Prop := exists a, r = Ok a.
Definition is_Raised {A} (r : result A) : Prop := exists e, r = Raised e.

(** Case analysis on a value that keeps the equation (used by the
    well-founded loop below). *)
Definition inspect {A : Type} (x : A) : { y : A | x = y } := exist _ x eq_refl.

(** [str(n)] for a Python int, and [print(a, b, ...)] with the default
    separator and line end. *)
Definition py_str (n : Z) : string := pretty n.

Fixpoint py_join (sep : string) (args : list string) : string :=
  match args with
  | [] => ""
  | [a] => a
  | a :: rest => a ++ sep ++ py_join sep rest
  end.

Definition py_print (args : list string) : string :=
  py_join " " args ++ String "010"%char EmptyString.

(** * Convert_lsat_pathrow_latlon.ipynb *)

Module Lsat.

Section Lookup.

(** The geometry libraries.  [R] is the coordinate type (Python floats),
    [OgrGeometry] what [feature.GetGeometryRef()] returns when the feature
    has a shape, [Wkt] the text [geom.ExportToWkt()] produces, [Shape] what
    [shapely.wkt.loads] builds from it, and [within] is shapely's
    [point.within(shape)]. *)
Variables (R OgrGeometry Wkt Shape : Type).
Variable ExportToWkt : OgrGeometry -> Wkt.
Variable wkt_loads : Wkt -> Shape.
Variable within : R * R -> Shape -> bool.

(** [shapely.geometry.Point(lon, lat)] *)
Definition Point (lon lat : R) : R * R := (lon, lat).

(** A feature of the WRS-2 layer: its geometry and the attribute fields
    the cell reads with [feature['MODE']], [feature['PATH']],
    [feature['ROW']].  A shapefile record may carry a null shape; for such a
    feature [feature.GetGeometryRef()] is [None]. *)
Record Feature : Type := mkFeature {
  GetGeometryRef : option OgrGeometry;
  MODE : string;
  PATH : Z;
  ROW : Z
}.

(** A layer is the list of its features: a shapefile numbers them
    0, 1, ..., n-1, and [layer.GetFeature(i)] is [None] for any other [i]. *)
Definition GetFeature (layer : list Feature) (i : nat) : option Feature := layer !! i.

(** [checkPoint] (lines 103-109).  Called on [None] the first line,
    [feature.GetGeometryRef()], raises; called on a feature without a
    geometry the second line, [geom.ExportToWkt()], does. *)
Definition checkPoint (feature : option Feature) (point : R * R) (mode : string)
  : result bool :=
  match feature with
  | None => Raised AttributeError
  | Some feature =>
      let geom := GetGeometryRef feature in
      match geom with
      | None => Raised AttributeError
      | Some geom =>
          let shape := wkt_loads (ExportToWkt geom) in
          if within point shape && String.eqb (MODE feature) mode
          then Ok true
          else Ok false
      end
  end.

(** One evaluation of the loop condition at index [i] (line 112):
    [inl i'] continues with [i'], [inr r] leaves the loop. *)
Definition loop_step (layer : list Feature) (point : R * R) (mode : string) (i : nat)
  : nat + result nat :=
  match checkPoint (GetFeature layer i) point mode with
  | Raised e => inr (Raised e)
  | Ok true => inr (Ok i)
  | Ok false => inl (S i)
  end.

(** The [while] loop run for at most [fuel] evaluations of its condition;
    [None] means the budget ran out with the loop still going. *)
Fixpoint run_loop (fuel : nat) (layer : list Feature) (point : R * R) (mode : string)
    (i : nat) : option (result nat) :=
  match fuel with
  | O => None
  | S fuel =>
      match loop_step layer point mode i with
      | inl i' => run_loop fuel layer point mode i'
      | inr r => Some r
      end
  end.

(** The same loop by well-founded recursion on the number of features
    not yet visited (lines 111-113).  The result is the value of [i] the
    loop ends with, or the exception that ended it. *)
Equations? scan (layer : list Feature) (point : R * R) (mode : string) (i : nat)
  : result nat by wf (length layer - i)%nat lt :=
  scan layer point mode i
    with inspect (checkPoint (GetFeature layer i) point mode) := {
    | exist _ (Raised e) _ => Raised e
    | exist _ (Ok true) _ => Ok i
    | exist _ (Ok false) Hcont => scan layer point mode (S i) }.
Proof.
  unfold checkPoint, GetFeature in Hcont.
  destruct (layer !! i) eqn:Hget; [|discriminate].
  apply lookup_lt_Some in Hget. lia.
Qed.

(** Lines 111-116: the loop, then the attribute reads. *)
Definition lookup (layer : list Feature) (point : R * R) (mode : string) : result (Z * Z) :=
  let? i := scan layer point mode 0 in
  match GetFeature layer i with
  | None => Raised TypeError
  | Some feature =>
      let path := PATH feature in
      let row := ROW feature in
      Ok (path, row)
  end.

(** Line 117: what the cell writes to stdout. *)
Definition cell_stdout (layer : list Feature) (point : R * R) (mode : string) : result string :=
  let? found := lookup layer point mode in
  let '(path, row) := found in
  Ok (py_print ["Path: "; py_str path; "Row: "; py_str row]).

(** ** Reading the results *)

(** The shape [checkPoint] tests the point against, for a feature that has
    one (lines 104-105). *)
Definition shape_of (feature : Feature) : option Shape :=
  match GetGeometryRef feature with
  | None => None
  | Some geom => Some (wkt_loads (ExportToWkt geom))
  end.

(** The point lies within the feature's geometry. *)
Definition contains (feature : Feature) (point : R * R) : bool :=
  match shape_of feature with
  | None => false
  | Some shape => within point shape
  end.

(** The reading of the notebook's title, "convert path/row to lat/lon":
    handed the path/row identifier of a feature of the layer (as the two
    numbers the cell takes), the cell answers with a pair of numbers that
    are coordinates of a place inside that feature. *)
Definition converts_pathrow_to_latlon (of_int : Z -> R) (layer : list Feature) : Prop :=
  forall feature, feature ∈ layer ->
    exists lon lat : Z,
      lookup layer (Point (of_int (PATH feature)) (of_int (ROW feature))) (MODE feature)
        = Ok (lon, lat)
      /\ contains feature (Point (of_int lon) (of_int lat)) = true.

(** [checkPoint] as a total test: True exactly for a feature that contains
    the point and has the mode, False for any other feature. *)
Definition checkPoint_decides (feature : Feature) (point : R * R) (mode : string) : Prop :=
  (checkPoint (Some feature) point mode = Ok true
   <-> contains feature point = true /\ MODE feature = mode)
  /\ (~ (contains feature point = true /\ MODE feature = mode) ->
      checkPoint (Some feature) point mode = Ok false).

(** The loop reaching the first passing feature, and the cell printing its
    PATH and ROW, whenever the layer has a passing feature. *)
Definition stops_at_first_match (layer : list Feature) (point : R * R) (mode : string)
  : Prop :=
  (exists feature, feature ∈ layer /\ checkPoint (Some feature) point mode = Ok true) ->
  exists k feature,
    scan layer point mode 0 = Ok k
    /\ GetFeature layer k = Some feature
    /\ checkPoint (Some feature) point mode = Ok true
    /\ (forall n, checkPoint (GetFeature layer n) point mode = Ok true -> (k <= n)%nat)
    /\ lookup layer point mode = Ok (PATH feature, ROW feature)
    /\ cell_stdout layer point mode
       = Ok (py_print ["Path: "; py_str (PATH feature); "Row: "; py_str (ROW feature)]).

(** The cell completing normally exactly when the layer has a passing
    feature. *)
Definition completes_iff_match (layer : list Feature) (point : R * R) (mode : string)
  : Prop :=
  is_Ok (cell_stdout layer point mode)
  <-> exists feature, feature ∈ layer /\ checkPoint (Some feature) point mode = Ok true.

End Lookup.

Abbreviation Layer G := (list (Feature G)).

Arguments mkFeature {OgrGeometry} _ _ _ _.
Arguments GetGeometryRef {OgrGeometry} _.
Arguments MODE {OgrGeometry} _.
Arguments PATH {OgrGeometry} _.
Arguments ROW {OgrGeometry} _.
Arguments Point {R} lon lat.
Arguments GetFeature {OgrGeometry} layer i.
Arguments shape_of {OgrGeometry Wkt Shape} ExportToWkt wkt_loads feature.
Arguments contains {R OgrGeometry Wkt Shape} ExportToWkt wkt_loads within feature point.
Arguments checkPoint {R OgrGeometry Wkt Shape} ExportToWkt wkt_loads within feature point mode.
Arguments loop_step {R OgrGeometry Wkt Shape} ExportToWkt wkt_loads within layer point mode i.
Arguments run_loop {R OgrGeometry Wkt Shape} ExportToWkt wkt_loads within fuel layer point mode i.
Arguments scan {R OgrGeometry Wkt Shape} ExportToWkt wkt_loads within layer point mode i.
Arguments lookup {R OgrGeometry Wkt Shape} ExportToWkt wkt_loads within layer point mode.
Arguments cell_stdout {R OgrGeometry Wkt Shape} ExportToWkt wkt_loads within layer point mode.
Arguments converts_pathrow_to_latlon {R OgrGeometry Wkt Shape} ExportToWkt wkt_loads within of_int layer.
Arguments checkPoint_decides {R OgrGeometry Wkt Shape} ExportToWkt wkt_loads within feature point mode.
Arguments stops_at_first_match {R OgrGeometry Wkt Shape} ExportToWkt wkt_loads within layer point mode.
Arguments completes_iff_match {R OgrGeometry Wkt Shape} ExportToWkt wkt_loads within layer point mode.

(** ** A concrete geometry: rational coordinates, rectangular tiles

    Used to run the cell on explicit layers.  A tile is an axis-parallel
    rectangle; a point is within it when it lies in its interior, as for
    shapely's [within], which excludes the boundary. *)

Record Box : Type := mkBox { west : Q; south : Q; east : Q; north : Q }.

Definition Qlt_bool (a b : Q) : bool := negb (Qle_bool b a).

Definition box_within (point : Q * Q) (b : Box) : bool :=
  Qlt_bool (west b) (fst point) && Qlt_bool (fst point) (east b)
  && Qlt_bool (south b) (snd point) && Qlt_bool (snd point) (north b).

Definition box_wkt (b : Box) : Box := b.
Definition box_loads (b : Box) : Box := b.

Definition q_checkPoint := checkPoint box_wkt box_loads box_within.
Definition q_scan := scan box_wkt box_loads box_within.
Definition q_run_loop := run_loop box_wkt box_loads box_within.
Definition q_lookup := lookup box_wkt box_loads box_within.
Definition q_cell_stdout := cell_stdout box_wkt box_loads box_within.
Definition q_contains := contains box_wkt box_loads box_within.

(** The inputs of the notebook's third cell: Boulder, Colorado, daytime. *)
Definition lon : Q := -1052705 # 10000.
Definition lat : Q := 400150 # 10000.
Definition point : Q * Q := Point lon lat.
Definition mode : string := "D".

(** A four-tile layer around Boulder.  Tiles 2 and 3 overlap there, tile 1
    covers it on the night-time pass only. *)
Definition sample_layer : Layer Box :=
  [ mkFeature (Some (mkBox (-110) 39 (-108) 41)) "D" 36 32;
    mkFeature (Some (mkBox (-106) 39 (-104) 41)) "A" 135 214;
    mkFeature (Some (mkBox (-106) 39 (-104) 41)) "D" 34 32;
    mkFeature (Some (mkBox (-107) 39 (-105) 41)) "D" 35 32 ].

(** A layer made of the single daytime tile 34/32. *)
Definition boulder_layer : Layer Box :=
  [ mkFeature (Some (mkBox (-106) 39 (-104) 41)) "D" 34 32 ].

(** A record with a null shape, and a layer that has it in front of the
    daytime tile 34/32. *)
Definition null_shape_tile : Feature Box := mkFeature None "D" 33 32.

Definition null_shape_layer : Layer Box :=
  [ null_shape_tile;
    mkFeature (Some (mkBox (-106) 39 (-104) 41)) "D" 34 32 ].

End Lsat.

(** * Ipyparallel_tutorial.ipynb *)

Module Ipp.

(** [range(start, stop)]: the integers from [start] up to, not including,
    [stop]. *)
Definition py_range (start stop : Z) : list Z := seqZ start (stop - start).

(** [repr] of a list of ints, as [print] shows it. *)
Definition py_repr_list (l : list Z) : string :=
  "[" ++ py_join ", " (map py_str l) ++ "]".

Section Cluster.

(** [c.map_sync], the blocking map of the view [c = cluster[:]]. *)
Variable map_sync : forall A B : Type, (A -> B) -> list A -> list B.

(** The squares cell (line 102). *)
Definition squares : list Z :=
  map_sync Z Z (fun x => x ^ 2) (py_range 1 28).

(** Line 103. *)
Definition squares_stdout : string :=
  py_print ["squares:"; py_repr_list squares].

End Cluster.

(** The embedding of the claim: the cluster call behaves as the
    sequential map. *)
Definition sequential_map (A B : Type) (f : A -> B) (l : list A) : list B :=
  map f l.

(** ** A model of the cluster's job distribution

    A direct view over [engines] engines cuts the sequence into [engines]
    contiguous blocks, the first [len mod engines] of them one element
    longer, has engine [p] map the function over block [p], and
    concatenates the partial results in engine order. *)
Definition block_low (len engines p : nat) : nat :=
  (p * (len / engines) + Nat.min p (len mod engines))%nat.

Definition getPartition {A} (l : list A) (engines p : nat) : list A :=
  let low := block_low (length l) engines p in
  let high := block_low (length l) engines (S p) in
  take (high - low) (drop low l).

Definition engines_map_sync (engines : nat) (A B : Type) (f : A -> B) (l : list A)
  : list B :=
  concat (map (fun p => map f (getPartition l engines p)) (seq 0 engines)).

End Ipp.

(** * smap_to_raster.ipynb *)

Module Smap.

(** The pixel types of GDAL. *)
Inductive GDALDataType : Type :=
| GDT_Byte | GDT_UInt16 | GDT_Int16 | GDT_UInt32 | GDT_Int32
| GDT_Float32 | GDT_Float64.

(** ** Floating point

    The cell computes on Python and numpy floats.  Their operations are an
    interface, together with the conversion GDAL makes when it stores a
    value in a band of a given pixel type; the only law used is that
    [int(float(n))] gives [n] back for a natural number below 2^53, where
    doubles are exact. *)
Class PyFloat (F : Type) : Type := {
  float_of_nat : nat -> F;          (* float(n) *)
  int_of_float : F -> Z;            (* int(x) *)
  fsub : F -> F -> F;               (* x - y *)
  fdiv : F -> F -> F;               (* x / y *)
  fneg : F -> F;                    (* -x *)
  fmin : F -> F -> F;               (* the smaller of two elements *)
  fmax : F -> F -> F;               (* the larger of two elements *)
  fzero : F;                        (* the int 0 stored as a double *)
  gdal_cast : GDALDataType -> F -> F;   (* x as a band of that type keeps it *)
  int_of_float_of_nat : forall n : nat,
    Z.of_nat n < 2 ^ 53 -> int_of_float (float_of_nat n) = Z.of_nat n
}.

(** ** File names

    The names the cell hands to [h5py.File] and [driver.Create] are paths.
    Which file a path reaches is the operating system's matter: relative
    paths start at the working directory, [./x] and [x] are one file, links
    and, on some systems, letter case make more names meet.  [resolve] gives
    the file a name reaches, as a canonical path; [creatable] says whether a
    file can be created or replaced under the name, which needs its folder
    to exist and to be writable. *)
Class FileSystem : Type := {
  resolve : string -> string;
  creatable : string -> bool
}.

Section WithFloat.

Context {F : Type} {PF : PyFloat F} {FS : FileSystem}.

(** The WKT text of a spatial reference comes from the EPSG tables of the
    osr library. *)
Inductive SpatialReference : Type :=
| srs_empty                     (* osr.SpatialReference() *)
| srs_EPSG (code : Z).          (* after srs.ImportFromEPSG(code) *)

Variable ExportToWkt : SpatialReference -> string.

Definition ImportFromEPSG (srs : SpatialReference) (code : Z) : SpatialReference :=
  srs_EPSG code.

(** ** numpy *)

(** An HDF5 dataset read into memory: its shape and its elements. *)
Record ndarray : Type := mk_ndarray { shape : list nat; elems : list F }.

(** What [np.array(x)] gives for [x] an HDF5 dataset or [None]: the
    latter is a 0-dimensional object array holding [None]. *)
Inductive nparray : Type :=
| NpNone
| NpArr (a : ndarray).

Definition np_array (x : option ndarray) : nparray :=
  match x with
  | None => NpNone
  | Some a => NpArr a
  end.

Definition np_shape (a : nparray) : list nat :=
  match a with
  | NpNone => []
  | NpArr a => shape a
  end.

(** [t[k]] on a tuple. *)
Definition tuple_index {A} (t : list A) (k : nat) : result A :=
  match t !! k with
  | Some x => Ok x
  | None => Raised IndexError
  end.

(** [a.min()] and [a.max()]: [None] for the array holding [None], an
    exception for an array without elements. *)
Definition np_reduce (op : F -> F -> F) (a : nparray) : result (option F) :=
  match a with
  | NpNone => Ok None
  | NpArr a =>
      match elems a with
      | [] => Raised ValueError
      | x :: xs => Ok (Some (fold_left op xs x))
      end
  end.

Definition np_min : nparray -> result (option F) := np_reduce fmin.
Definition np_max : nparray -> result (option F) := np_reduce fmax.

(** [x - y] on two results of a reduction. *)
Definition py_sub (x y : option F) : result F :=
  match x, y with
  | Some x, Some y => Ok (fsub x y)
  | _, _ => Raised TypeError
  end.

(** The array as a band of the given pixel type keeps it. *)
Definition cast_array (ty : GDALDataType) (a : ndarray) : ndarray :=
  mk_ndarray (shape a) (map (gdal_cast ty) (elems a)).

(** ** Files and library calls

    The files are a finite map from canonical paths to files; a name
    reaches the entry at [resolve name].  An HDF5 file is a finite map from
    the path names of its datasets to arrays; a name that is not a dataset
    of the file has no entry. *)

Definition geotransform : Type := (F * F * F * F * F * F)%type.

(** A raster dataset as the GTiff driver keeps it. *)
Record Raster : Type := mkRaster {
  RasterXSize : Z;
  RasterYSize : Z;
  DataType : GDALDataType;
  GeoTransform : option geotransform;
  Projection : string;
  Bands : list (option ndarray)     (* band n is entry n-1 *)
}.

Definition RasterCount (r : Raster) : Z := Z.of_nat (length (Bands r)).

Inductive file : Type :=
| H5 (contents : gmap string ndarray)   (* datasets by path name *)
| GTiff (r : Raster)
| OtherFile.

Inductive h5mode : Type := mode_r | mode_r_plus | mode_w | mode_a.

(** The effects a cell has on the outside, in the order they happen. *)
Inductive event : Type :=
| EvOpen (name : string) (mode : h5mode)
| EvGet (name key : string)
| EvClose (name : string)
| EvCreate (name : string) (xsize ysize nbands : Z) (ty : GDALDataType)
| EvSetGeoTransform (name : string) (gt : geotransform)
| EvSetProjection (name : string) (wkt : string)
| EvWriteArray (name : string) (band : Z) (a : ndarray).

Record world : Type := mkWorld {
  files : gmap string file;       (* the files, by canonical path *)
  trace : list event
}.

(** Computations of a cell: they change the world and return or raise. *)
Definition M (A : Type) : Type := world -> world * result A.

Definition ret {A} (a : A) : M A := fun w => (w, Ok a).

Definition bind {A B} (m : M A) (k : A -> M B) : M B :=
  fun w =>
    match m w with
    | (w', Ok a) => k a w'
    | (w', Raised e) => (w', Raised e)
    end.

Definition lift {A} (r : result A) : M A := fun w => (w, r).

Definition log (ev : event) (w : world) : world :=
  mkWorld (files w) (trace w ++ [ev]).

(** Writing the file a name reaches. *)
Definition write_file (name : string) (f : file) (w : world) : world :=
  mkWorld (<[resolve name := f]> (files w)) (trace w).

Notation "'let!' x := e 'in' k" := (bind e (fun x => k))
  (at level 10, x name, e at level 100, k at level 200).
Notation "e ;;; k" := (bind e (fun _ => k))
  (at level 100, k at level 200, right associativity).

(** [h5py.File(name, mode)].  Mode ['r'] needs an existing HDF5 file and
    leaves the files as they are; ['w'] truncates, ['a'] creates a missing
    file, both where a file can be created.  The handle is the file name. *)
Definition h5py_File (name : string) (mode : h5mode) : M string :=
  fun w =>
    match mode, files w !! resolve name with
    | mode_w, _ =>
        if creatable name
        then (log (EvOpen name mode) (write_file name (H5 ∅) w), Ok name)
        else (w, Raised OSError)
    | mode_a, None =>
        if creatable name
        then (log (EvOpen name mode) (write_file name (H5 ∅) w), Ok name)
        else (w, Raised OSError)
    | _, Some (H5 _) => (log (EvOpen name mode) w, Ok name)
    | _, _ => (w, Raised OSError)
    end.

(** [h5File.get(key)]: the dataset, or [None] when the file has none
    under that name. *)
Definition h5_get (h5File : string) (key : string) : M (option ndarray) :=
  fun w =>
    match files w !! resolve h5File with
    | Some (H5 contents) => (log (EvGet h5File key) w, Ok (contents !! key))
    | _ => (w, Raised OSError)
    end.

Definition h5_close (h5File : string) : M unit :=
  fun w => (log (EvClose h5File) w, Ok tt).

Definition c_int (x : Z) : bool := (- 2 ^ 31 <=? x) && (x <=? 2 ^ 31 - 1).

(** [gdal.GetDriverByName(name)]: the driver of a raster format, [None]
    for a name GDAL does not know.  GTiff is the one format here. *)
Inductive Driver : Type := GTiffDriver.

Definition GetDriverByName (name : string) : option Driver :=
  if String.eqb name "GTiff" then Some GTiffDriver else None.

(** [driver.Create(name, xsize, ysize, nbands, type)]: writes a new file,
    replacing the one the name reaches if there is one, and returns its
    dataset; without a positive size and band count, or under a name no
    file can be created at, nothing is written and the call returns [None].
    The sizes are C ints. *)
Definition driver_Create (driver : option Driver) (name : string)
    (xsize ysize nbands : Z) (ty : GDALDataType) : M (option string) :=
  fun w =>
    match driver with
    | None => (w, Raised AttributeError)
    | Some GTiffDriver =>
        if negb (c_int xsize && c_int ysize && c_int nbands)
        then (w, Raised OverflowError)
        else if (0 <? xsize) && (0 <? ysize) && (0 <? nbands) && creatable name then
          let r := mkRaster xsize ysize ty None "" (replicate (Z.to_nat nbands) None) in
          (log (EvCreate name xsize ysize nbands ty) (write_file name (GTiff r) w),
           Ok (Some name))
        else (w, Ok None)
    end.

(** Changing the raster a dataset handle stands for. *)
Definition update_raster (name : string) (f : Raster -> Raster) (w : world) : world :=
  match files w !! resolve name with
  | Some (GTiff r) => write_file name (GTiff (f r)) w
  | _ => w
  end.

(** [raster.SetGeoTransform(t)] *)
Definition SetGeoTransform (raster : option string)
    (t : option F * F * F * option F * F * F) : M unit :=
  fun w =>
    match raster with
    | None => (w, Raised AttributeError)
    | Some name =>
        match t with
        | (Some x0, dx, rx, Some y0, ry, dy) =>
            let gt := (x0, dx, rx, y0, ry, dy) in
            (log (EvSetGeoTransform name gt)
               (update_raster name (fun r =>
                  mkRaster (RasterXSize r) (RasterYSize r) (DataType r)
                           (Some gt) (Projection r) (Bands r)) w),
             Ok tt)
        | _ => (w, Raised TypeError)
        end
    end.

(** [raster.SetProjection(wkt)] *)
Definition SetProjection (raster : option string) (wkt : string) : M unit :=
  fun w =>
    match raster with
    | None => (w, Raised AttributeError)
    | Some name =>
        (log (EvSetProjection name wkt)
           (update_raster name (fun r =>
              mkRaster (RasterXSize r) (RasterYSize r) (DataType r)
                       (GeoTransform r) wkt (Bands r)) w),
         Ok tt)
    end.

(** [raster.GetRasterBand(band).WriteArray(a)]: the array has to be
    two-dimensional and fit the raster; the band keeps its elements
    converted to the pixel type of the raster. *)
Definition WriteArray (raster : option string) (band : Z) (a : nparray) : M unit :=
  fun w =>
    match raster with
    | None => (w, Raised AttributeError)
    | Some name =>
        match files w !! resolve name with
        | Some (GTiff r) =>
            if negb ((1 <=? band) && (band <=? RasterCount r)) then (w, Raised AttributeError)
            else
              match a with
              | NpArr arr =>
                  match shape arr with
                  | [rows; cols] =>
                      if (Z.of_nat cols <=? RasterXSize r) && (Z.of_nat rows <=? RasterYSize r)
                      then
                        (log (EvWriteArray name band arr)
                           (update_raster name (fun r =>
                              mkRaster (RasterXSize r) (RasterYSize r) (DataType r)
                                       (GeoTransform r) (Projection r)
                                       (<[Z.to_nat (band - 1) :=
                                            Some (cast_array (DataType r) arr)]>
                                          (Bands r))) w),
                         Ok tt)
                      else (w, Raised ValueError)
                  | _ => (w, Raised ValueError)
                  end
              | NpNone => (w, Raised ValueError)
              end
        | _ => (w, Raised AttributeError)
        end
    end.

(** ** The cell *)

(** [smap2raster] (lines 203-248). *)
Definition smap2raster (inputFile group dataset : string) : M unit :=
  let! h5File := h5py_File inputFile mode_r in
  let! data := h5_get h5File (group ++ "/" ++ dataset) in
  let! lat := h5_get h5File "cell_lat" in
  let! lon := h5_get h5File "cell_lon" in
  let np_data := np_array data in
  let np_lat := np_array lat in
  let np_lon := np_array lon in
  let! num_cols := lift (let? n := tuple_index (np_shape np_data) 1 in Ok (float_of_nat n)) in
  let! num_rows := lift (let? n := tuple_index (np_shape np_data) 0 in Ok (float_of_nat n)) in
  let! xmin := lift (np_min np_lon) in
  let! xmax := lift (np_max np_lon) in
  let! ymin := lift (np_min np_lat) in
  let! ymax := lift (np_max np_lat) in
  let! xres := lift (let? d := py_sub xmax xmin in Ok (fdiv d num_cols)) in
  let! yres := lift (let? d := py_sub ymax ymin in Ok (fdiv d num_rows)) in
  let t := (xmin, xres, fzero, ymax, fzero, fneg yres) in
  let driver := GetDriverByName "GTiff" in
  let! raster := driver_Create driver (dataset ++ "Raster.tif")
                   (int_of_float num_cols) (int_of_float num_rows) 1 GDT_Float32 in
  SetGeoTransform raster t ;;;
  let srs := srs_empty in
  let srs := ImportFromEPSG srs 4326 in
  SetProjection raster (ExportToWkt srs) ;;;
  WriteArray raster 1 np_data ;;;
  h5_close h5File.

(** [for x in l: body(x)] *)
Fixpoint for_each {A} (l : list A) (body : A -> M unit) : M unit :=
  match l with
  | [] => ret tt
  | x :: l => body x ;;; for_each l body
  end.

(** Lines 255-256: [for i in range(0, len(datasets)): body(datasets[i])],
    first for any body, then with the call the cell makes. *)
Definition for_range_loop (body : string -> M unit) (datasets : list string) : M unit :=
  for_each (seq 0 (length datasets)) (fun i =>
    let! name := lift (tuple_index datasets i) in
    body name).

Definition datasets_loop (file_path which_group : string) (datasets : list string)
  : M unit :=
  for_range_loop (smap2raster file_path which_group) datasets.

(** ** Reading a run *)

(** The events a computation added to the trace. *)
Definition new_events (w w' : world) : list event :=
  drop (length (trace w)) (trace w').

(** The files created, in order. *)
Definition created_names (evs : list event) : list string :=
  omap (fun ev => match ev with EvCreate name _ _ _ _ => Some name | _ => None end) evs.

(** The datasets asked of HDF5 files, in order. *)
Definition h5_reads (evs : list event) : list string :=
  omap (fun ev => match ev with EvGet _ key => Some key | _ => None end) evs.

(** The name of the raster file made for a dataset (line 240). *)
Definition raster_name (dataset : string) : string := dataset ++ "Raster.tif".

(** The georeferencing the notebook describes: the west edge, the width of
    a cell, the north edge and the height of a cell, from the extreme
    values of the longitude and latitude arrays and the shape of the data. *)
Definition array_min (a : ndarray) : option F :=
  match elems a with
  | [] => None
  | x :: xs => Some (fold_left fmin xs x)
  end.

Definition array_max (a : ndarray) : option F :=
  match elems a with
  | [] => None
  | x :: xs => Some (fold_left fmax xs x)
  end.

Definition expected_geotransform (cell_lon cell_lat : ndarray) (num_rows num_cols : nat)
  : option geotransform :=
  match array_min cell_lon, array_max cell_lon, array_min cell_lat, array_max cell_lat with
  | Some xmin, Some xmax, Some ymin, Some ymax =>
      Some (xmin, fdiv (fsub xmax xmin) (float_of_nat num_cols), fzero,
            ymax, fzero, fneg (fdiv (fsub ymax ymin) (float_of_nat num_rows)))
  | _, _, _, _ => None
  end.

(** The events of a call that reads its three datasets, and of one that
    goes on to make the raster. *)
Definition read_events (inputFile group dataset : string) : list event :=
  [EvOpen inputFile mode_r;
   EvGet inputFile (group ++ "/" ++ dataset);
   EvGet inputFile "cell_lat";
   EvGet inputFile "cell_lon"].

Definition raster_events (dataset : string) (xsize ysize : Z) (gt : geotransform)
  : list event :=
  [EvCreate (raster_name dataset) xsize ysize 1 GDT_Float32;
   EvSetGeoTransform (raster_name dataset) gt;
   EvSetProjection (raster_name dataset) (ExportToWkt (srs_EPSG 4326))].

Definition write_events (inputFile dataset : string) (data : ndarray) : list event :=
  [EvWriteArray (raster_name dataset) 1 data; EvClose inputFile].

(** The raster a call leaves behind, with its band written or not. *)
Definition raster_of (xsize ysize : Z) (gt : geotransform) (band : option ndarray)
  : Raster :=
  mkRaster xsize ysize GDT_Float32 (Some gt) (ExportToWkt (srs_EPSG 4326)) [band].

(** The ways a call of [smap2raster] can end: before a raster exists, with
    an exception; or with the raster made, and then either completed, the
    band holding the data as Float32, or stopped by the array not fitting
    the band. *)
Inductive call_outcome (w : world) (inputFile group dataset : string)
  : world -> result unit -> Prop :=
| stopped_early w' e :
    files w' = files w ->
    trace w' = trace w \/ trace w' = trace w ++ read_events inputFile group dataset ->
    call_outcome w inputFile group dataset w' (Raised e)
| raster_made contents data cell_lat cell_lon num_rows num_cols gt w' res :
    files w !! resolve inputFile = Some (H5 contents) ->
    contents !! (group ++ "/" ++ dataset)%string = Some data ->
    contents !! "cell_lat" = Some cell_lat ->
    contents !! "cell_lon" = Some cell_lon ->
    shape data !! 0%nat = Some num_rows ->
    shape data !! 1%nat = Some num_cols ->
    expected_geotransform cell_lon cell_lat num_rows num_cols = Some gt ->
    let xsize := int_of_float (float_of_nat num_cols) in
    let ysize := int_of_float (float_of_nat num_rows) in
    0 < xsize <= 2 ^ 31 - 1 ->
    0 < ysize <= 2 ^ 31 - 1 ->
    creatable (raster_name dataset) = true ->
    (res = Ok tt
     /\ shape data = [num_rows; num_cols]
     /\ w' = mkWorld
               (<[resolve (raster_name dataset) :=
                    GTiff (raster_of xsize ysize gt (Some (cast_array GDT_Float32 data)))]>
                  (files w))
               (trace w ++ read_events inputFile group dataset
                        ++ raster_events dataset xsize ysize gt
                        ++ write_events inputFile dataset data))
    \/ (res = Raised ValueError
        /\ w' = mkWorld
                  (<[resolve (raster_name dataset) :=
                       GTiff (raster_of xsize ysize gt None)]>
                     (files w))
                  (trace w ++ read_events inputFile group dataset
                           ++ raster_events dataset xsize ysize gt)) ->
    call_outcome w inputFile group dataset w' res.

(** An input on which the call goes through: an HDF5 file with the
    dataset, two-dimensional and of a size the driver accepts, and with
    non-empty coordinate arrays, and a raster name a file can be created
    under. *)
Definition call_ready (w : world) (inputFile group dataset : string)
    (contents : gmap string ndarray) (data cell_lat cell_lon : ndarray)
    (num_rows num_cols : nat) : Prop :=
  files w !! resolve inputFile = Some (H5 contents)
  /\ contents !! (group ++ "/" ++ dataset)%string = Some data
  /\ contents !! "cell_lat" = Some cell_lat
  /\ contents !! "cell_lon" = Some cell_lon
  /\ shape data = [num_rows; num_cols]
  /\ elems cell_lat <> []
  /\ elems cell_lon <> []
  /\ 0 < Z.of_nat num_cols <= 2 ^ 31 - 1
  /\ 0 < Z.of_nat num_rows <= 2 ^ 31 - 1
  /\ creatable (raster_name dataset) = true.

(** An input on which the loop goes through: every name is ready, and no
    raster it makes is, under its name, the input file. *)
Definition loop_ready (w : world) (file_path which_group : string)
    (datasets : list string) : Prop :=
  forall name, name ∈ datasets ->
    resolve (raster_name name) <> resolve file_path
    /\ exists contents data cell_lat cell_lon num_rows num_cols,
         call_ready w file_path which_group name
           contents data cell_lat cell_lon num_rows num_cols.

(** The file an event creates or writes, if it does. *)
Definition written_name (ev : event) : option string :=
  match ev with
  | EvOpen name mode_w | EvOpen name mode_a => Some name
  | EvOpen _ _ | EvGet _ _ | EvClose _ => None
  | EvCreate name _ _ _ _ => Some name
  | EvSetGeoTransform name _ => Some name
  | EvSetProjection name _ => Some name
  | EvWriteArray name _ _ => Some name
  end.

(** "Every call creates a raster with these fixed properties", read as it
    stands: after the call the file named after the dataset is a raster the
    call created, with one band of type Float32 and the EPSG:4326
    projection. *)
Definition call_creates_fixed_raster (w : world) (inputFile group dataset : string)
  : Prop :=
  let w' := fst (smap2raster inputFile group dataset w) in
  raster_name dataset ∈ created_names (new_events w w')
  /\ exists r, files w' !! resolve (raster_name dataset) = Some (GTiff r)
       /\ RasterCount r = 1
       /\ DataType r = GDT_Float32
       /\ Projection r = ExportToWkt (srs_EPSG 4326).

(** "Each name is passed to smap2raster exactly once, in list order, and
    each call produces exactly one raster file", read as it stands. *)
Definition loop_makes_every_raster (w : world) (file_path which_group : string)
    (datasets : list string) : Prop :=
  let w' := fst (datasets_loop file_path which_group datasets w) in
  created_names (new_events w w') = map raster_name datasets
  /\ forall name, name ∈ datasets ->
       exists r, files w' !! resolve (raster_name name) = Some (GTiff r).

(** "smap2raster never modifies its input", read as it stands. *)
Definition call_keeps_input (w : world) (inputFile group dataset : string) : Prop :=
  let w' := fst (smap2raster inputFile group dataset w) in
  files w' !! resolve inputFile = files w !! resolve inputFile.

End WithFloat.

Arguments ndarray F : clear implicits.
Arguments nparray F : clear implicits.
Arguments Raster F : clear implicits.
Arguments file F : clear implicits.
Arguments event F : clear implicits.
Arguments world F : clear implicits.
Arguments geotransform F : clear implicits.

(** ** Rational numbers as floats

    Exact arithmetic, to run the cell on explicit files.  The conversion to
    a pixel type is that of GDAL on the values in the range of the type:
    Float32 rounds to 24 significant bits, to the nearest and to even on a
    tie; the integer types round to the nearest integer, away from zero on a
    tie, and keep the result within their range. *)

(** The integer nearest to [n / d], for [0 <= n] and [0 < d]. *)
Definition round_half_even (n d : Z) : Z :=
  let q := n / d in
  let r := n mod d in
  if 2 * r <? d then q
  else if d <? 2 * r then q + 1
  else if Z.even q then q else q + 1.

Definition Q_float32 (x : Q) : Q :=
  let n := Z.abs (Qnum x) in
  let d := Zpos (Qden x) in
  if n =? 0 then 0%Q
  else
    let scaled := fun e => if 0 <=? e then (n, d * 2 ^ e) else (n * 2 ^ (- e), d) in
    let e0 := Z.log2 n - Z.log2 d - 23 in
    let e := if fst (scaled e0) <? 2 ^ 23 * snd (scaled e0) then e0 - 1 else e0 in
    let m := round_half_even (fst (scaled e)) (snd (scaled e)) in
    let magnitude :=
      if 0 <=? e then inject_Z (m * 2 ^ e) else Qmake m (Z.to_pos (2 ^ (- e))) in
    Qred (if Qnum x <? 0 then Qopp magnitude else magnitude).

Definition Q_round (x : Q) : Z :=
  let n := Z.abs (Qnum x) in
  let d := Zpos (Qden x) in
  let m := (2 * n + d) / (2 * d) in
  if Qnum x <? 0 then - m else m.

Definition Q_clamp (lo hi : Z) (x : Q) : Q :=
  inject_Z (Z.max lo (Z.min hi (Q_round x))).

Definition Q_gdal_cast (ty : GDALDataType) (x : Q) : Q :=
  match ty with
  | GDT_Byte => Q_clamp 0 255 x
  | GDT_UInt16 => Q_clamp 0 65535 x
  | GDT_Int16 => Q_clamp (-32768) 32767 x
  | GDT_UInt32 => Q_clamp 0 4294967295 x
  | GDT_Int32 => Q_clamp (-2147483648) 2147483647 x
  | GDT_Float32 => Q_float32 x
  | GDT_Float64 => x
  end.

#[export] Instance Q_float : PyFloat Q.
Proof.
  refine {| float_of_nat := fun n => inject_Z (Z.of_nat n);
            int_of_float := fun q => Z.quot (Qnum q) (Zpos (Qden q));
            fsub := Qminus;
            fdiv := Qdiv;
            fneg := Qopp;
            fmin := fun a b => if Qle_bool a b then a else b;
            fmax := fun a b => if Qle_bool a b then b else a;
            fzero := 0%Q;
            gdal_cast := Q_gdal_cast |}.
  intros n _. simpl. apply Z.quot_1_r.
Defined.

(** ** A working directory without folders

    To run the cell on explicit files: a name reaches the file of that name
    in the working directory, with or without [./] in front, and a file can
    be created under a name that has no folder part. *)

Fixpoint strip_dot_slash (name : string) : string :=
  match name with
  | String "."%char (String "/"%char rest) => strip_dot_slash rest
  | _ => name
  end.

Fixpoint has_slash (name : string) : bool :=
  match name with
  | EmptyString => false
  | String c rest => Ascii.eqb c "/"%char || has_slash rest
  end.

Definition flat_directory : FileSystem :=
  {| resolve := strip_dot_slash;
     creatable := fun name => negb (has_slash (strip_dot_slash name)) |}.

(** A stand-in for the EPSG table. *)
Definition epsg_wkt (srs : SpatialReference) : string :=
  match srs with
  | srs_empty => ""
  | srs_EPSG code => "EPSG:" ++ py_str code
  end.

(** The constants of the notebook (lines 168, 171, 252). *)
Definition file_path : string := "SMAP_L4_SM_gph_20150331T013000_Vb1010_001.h5".
Definition which_group : string := "Geophysical_Data".
Definition datasets : list string := ["sm_surface_wetness"; "soil_temp_layer2"].

(** A small file of the same layout: a 2 x 3 grid of cells between
    106 and 104 degrees west and 40 and 41 degrees north, two datasets on
    that grid and a three-dimensional one. *)
Definition sample_h5 : gmap string (ndarray Q) :=
  <["cell_lon" := mk_ndarray [2; 3]%nat [-106; -105; -104; -106; -105; -104]%Q]>
  (<["cell_lat" := mk_ndarray [2; 3]%nat [41; 41; 41; 40; 40; 40]%Q]>
  (<["Geophysical_Data/sm_surface_wetness" :=
       mk_ndarray [2; 3]%nat [1 # 2; 1 # 4; 3 # 4; 1 # 8; 3 # 8; 5 # 8]%Q]>
  (<["Geophysical_Data/soil_temp_layer2" :=
       mk_ndarray [2; 3]%nat [280; 281; 282; 283; 284; 285]%Q]>
  (<["Geophysical_Data/soil_temp_profile" :=
       mk_ndarray [2; 1; 3]%nat [280; 281; 282; 283; 284; 285]%Q]> ∅)))).

Definition sample_world : world Q :=
  mkWorld {[ file_path := H5 sample_h5 ]} [].

(** The same file under a name that is also the name of the raster made
    for the dataset [sm_surface_wetness], and a path that reaches it. *)
Definition aliased_world : world Q :=
  mkWorld {[ "sm_surface_wetnessRaster.tif" := H5 sample_h5 ]} [].

Definition aliased_path : string := "./sm_surface_wetnessRaster.tif".

(** The sample file with one more dataset, in a subgroup of the group. *)
Definition nested_h5 : gmap string (ndarray Q) :=
  <["Geophysical_Data/daily/wetness" :=
      mk_ndarray [2; 3]%nat [1 # 2; 1 # 4; 3 # 4; 1 # 8; 3 # 8; 5 # 8]%Q]> sample_h5.

Definition nested_world : world Q := mkWorld {[ file_path := H5 nested_h5 ]} [].

(** The sample file with a dataset whose values are not Float32 numbers. *)
Definition tenths_grid : ndarray Q :=
  mk_ndarray [1; 2]%nat [1 # 10; 16777217 # 1]%Q.

Definition tenths_h5 : gmap string (ndarray Q) :=
  <["Geophysical_Data/tenths" := tenths_grid]> sample_h5.

Definition tenths_world : world Q := mkWorld {[ file_path := H5 tenths_h5 ]} [].

(** Variants of the sample file for the ways a call can fail: one whose
    [cell_lon] has no element, one without [cell_lat], one with a dataset
    that has no rows. *)
Definition empty_lon_h5 : gmap string (ndarray Q) :=
  <["cell_lon" := mk_ndarray [0]%nat []]> sample_h5.

Definition no_lat_h5 : gmap string (ndarray Q) :=
  delete "cell_lat" sample_h5.

Definition no_rows_h5 : gmap string (ndarray Q) :=
  <["Geophysical_Data/no_rows" := mk_ndarray [0; 3]%nat []]> sample_h5.

Definition empty_lon_world : world Q := mkWorld {[ file_path := H5 empty_lon_h5 ]} [].
Definition no_lat_world : world Q := mkWorld {[ file_path := H5 no_lat_h5 ]} [].
Definition no_rows_world : world Q := mkWorld {[ file_path := H5 no_rows_h5 ]} [].

(** A directory in which the input name is taken by a file of another
    kind. *)
Definition not_hdf5_world : world Q := mkWorld {[ file_path := OtherFile ]} [].

(** The arrays of the sample file, by name. *)
Definition wetness_grid : ndarray Q :=
  mk_ndarray [2; 3]%nat [1 # 2; 1 # 4; 3 # 4; 1 # 8; 3 # 8; 5 # 8]%Q.
Definition layer2_grid : ndarray Q :=
  mk_ndarray [2; 3]%nat [280; 281; 282; 283; 284; 285]%Q.
Definition profile_grid : ndarray Q :=
  mk_ndarray [2; 1; 3]%nat [280; 281; 282; 283; 284; 285]%Q.
Definition lat_grid : ndarray Q :=
  mk_ndarray [2; 3]%nat [41; 41; 41; 40; 40; 40]%Q.
Definition lon_grid : ndarray Q :=
  mk_ndarray [2; 3]%nat [-106; -105; -104; -106; -105; -104]%Q.

End Smap.

(** * Properties of the path/row lookup *)

Module LsatFacts.

Import Lsat.

Section LookupFacts.

Context {R OgrGeometry Wkt Shape : Type}.
Variable ExportToWkt : OgrGeometry -> Wkt.
Variable wkt_loads : Wkt -> Shape.
Variable within : R * R -> Shape -> bool.

Local Abbreviation shape_of := (Lsat.shape_of ExportToWkt wkt_loads).
Local Abbreviation contains := (Lsat.contains ExportToWkt wkt_loads within).
Local Abbreviation checkPoint := (Lsat.checkPoint ExportToWkt wkt_loads within).
Local Abbreviation loop_step := (Lsat.loop_step ExportToWkt wkt_loads within).
Local Abbreviation run_loop := (Lsat.run_loop ExportToWkt wkt_loads within).
Local Abbreviation scan := (Lsat.scan ExportToWkt wkt_loads within).
Local Abbreviation lookup := (Lsat.lookup ExportToWkt wkt_loads within).
Local Abbreviation cell_stdout := (Lsat.cell_stdout ExportToWkt wkt_loads within).

Implicit Types (layer : Layer OgrGeometry) (feature : Feature OgrGeometry).
Implicit Types (point : R * R) (mode : string) (i j k : nat).

(** The loop, one iteration unrolled. *)
Lemma scan_unfold layer point mode i :
  scan layer point mode i =
  match checkPoint (GetFeature layer i) point mode with
  | Raised e => Raised e
  | Ok true => Ok i
  | Ok false => scan layer point mode (S i)
  end.
Proof.
  funelim (scan layer point mode i).
  all: match goal with H : Lsat.checkPoint _ _ _ _ _ _ = _ |- _ => rewrite H end.
  all: reflexivity.
Qed.

(** [checkPoint] on a feature with a geometry is the conjunction of the
    containment test and the mode filter. *)
Lemma checkPoint_geometry feature point mode geom :
  GetGeometryRef feature = Some geom ->
  checkPoint (Some feature) point mode
  = Ok (within point (wkt_loads (ExportToWkt geom)) && String.eqb (MODE feature) mode)
  /\ contains feature point = within point (wkt_loads (ExportToWkt geom)).
Proof.
  intros Hgeom. unfold Lsat.checkPoint, Lsat.contains, Lsat.shape_of. rewrite Hgeom.
  destruct (within point (wkt_loads (ExportToWkt geom)) && String.eqb (MODE feature) mode);
    auto.
Qed.

(** On a feature without a geometry it raises. *)
Lemma checkPoint_no_geometry feature point mode :
  GetGeometryRef feature = None ->
  checkPoint (Some feature) point mode = Raised AttributeError
  /\ contains feature point = false.
Proof.
  intros Hgeom. unfold Lsat.checkPoint, Lsat.contains, Lsat.shape_of. rewrite Hgeom. auto.
Qed.

Lemma checkPoint_true_iff feature point mode :
  checkPoint (Some feature) point mode = Ok true
  <-> contains feature point = true /\ MODE feature = mode.
Proof.
  destruct (GetGeometryRef feature) as [geom|] eqn:Hgeom.
  - destruct (checkPoint_geometry feature point mode geom Hgeom) as [-> ->]. split.
    + intros [= Hb]. apply andb_true_iff in Hb as [Hw Hm].
      apply String.eqb_eq in Hm. auto.
    + intros [Hw Hm]. rewrite Hw. apply String.eqb_eq in Hm. rewrite Hm. reflexivity.
  - destruct (checkPoint_no_geometry feature point mode Hgeom) as [-> ->]. split.
    + discriminate.
    + intros [Hw _]. discriminate Hw.
Qed.

Lemma checkPoint_false_iff feature point mode :
  checkPoint (Some feature) point mode = Ok false
  <-> GetGeometryRef feature <> None
      /\ ~ (contains feature point = true /\ MODE feature = mode).
Proof.
  rewrite <- checkPoint_true_iff.
  destruct (GetGeometryRef feature) as [geom|] eqn:Hgeom.
  - destruct (checkPoint_geometry feature point mode geom Hgeom) as [-> _].
    destruct (within point (wkt_loads (ExportToWkt geom)) && String.eqb (MODE feature) mode).
    + split; [discriminate | intros [_ H]; destruct H; reflexivity].
    + split; [intros _; split; discriminate | reflexivity].
  - destruct (checkPoint_no_geometry feature point mode Hgeom) as [-> _].
    split; [discriminate | intros [H _]; destruct H; reflexivity].
Qed.

Lemma checkPoint_raises_iff feature point mode e :
  checkPoint (Some feature) point mode = Raised e
  <-> e = AttributeError /\ GetGeometryRef feature = None.
Proof.
  destruct (GetGeometryRef feature) as [geom|] eqn:Hgeom.
  - destruct (checkPoint_geometry feature point mode geom Hgeom) as [-> _].
    split; [discriminate | intros [_ H]; discriminate H].
  - destruct (checkPoint_no_geometry feature point mode Hgeom) as [-> _].
    split; [intros [= <-]; auto | intros [-> _]; reflexivity].
Qed.

(** The condition raises exactly at an index past the last feature and at
    a feature without a geometry. *)
Lemma checkPoint_raises layer point mode i e :
  checkPoint (GetFeature layer i) point mode = Raised e
  <-> e = AttributeError
      /\ ((length layer <= i)%nat
          \/ exists feature, GetFeature layer i = Some feature
                             /\ GetGeometryRef feature = None).
Proof.
  unfold GetFeature. destruct (layer !! i) as [feature|] eqn:Hget.
  - rewrite checkPoint_raises_iff. apply lookup_lt_Some in Hget. split.
    + intros [-> Hgeom]. split; [reflexivity|]. right. eauto.
    + intros [-> [Hlen | (f & [= <-] & Hgeom)]]; [lia | auto].
  - apply lookup_ge_None in Hget. simpl. split.
    + intros [= <-]. auto.
    + intros [-> _]. reflexivity.
Qed.

Lemma checkPoint_Ok_lt layer point mode i b :
  checkPoint (GetFeature layer i) point mode = Ok b -> (i < length layer)%nat.
Proof.
  unfold GetFeature. destruct (layer !! i) as [feature|] eqn:Hget; [|discriminate].
  intros _. eapply lookup_lt_Some, Hget.
Qed.

(** A feature with a geometry is tested without an exception. *)
Lemma checkPoint_Ok_geometry layer point mode j feature :
  GetFeature layer j = Some feature -> GetGeometryRef feature <> None ->
  exists b, checkPoint (GetFeature layer j) point mode = Ok b.
Proof.
  intros Hget Hgeom. rewrite Hget.
  destruct (GetGeometryRef feature) as [geom|] eqn:Hg; [|destruct Hgeom; reflexivity].
  destruct (checkPoint_geometry feature point mode geom Hg) as [-> _]. eauto.
Qed.

(** The bounded loop and the well-founded one agree. *)
Lemma run_loop_scan layer point mode fuel : forall i r,
  run_loop fuel layer point mode i = Some r -> scan layer point mode i = r.
Proof.
  induction fuel as [|fuel IH]; intros i r; simpl; [discriminate|].
  rewrite scan_unfold. unfold Lsat.loop_step.
  destruct (checkPoint (GetFeature layer i) point mode) as [[|]|e].
  - intros [= <-]. reflexivity.
  - apply IH.
  - intros [= <-]. reflexivity.
Qed.

Lemma run_loop_more layer point mode fuel : forall fuel' i r,
  run_loop fuel layer point mode i = Some r -> (fuel <= fuel')%nat ->
  run_loop fuel' layer point mode i = Some r.
Proof.
  induction fuel as [|fuel IH]; intros fuel' i r; simpl; [discriminate|].
  intros Hrun Hle. destruct fuel' as [|fuel']; [lia|]. simpl.
  destruct (loop_step layer point mode i); [|assumption].
  apply IH; [assumption | lia].
Qed.

(** The loop always ends: one test per remaining feature and one more
    past the end suffice. *)
Lemma run_loop_ends layer point mode : forall n i,
  (length layer - i <= n)%nat ->
  exists r, run_loop (S n) layer point mode i = Some r.
Proof.
  induction n as [|n IH]; intros i Hn.
  - simpl. unfold Lsat.loop_step.
    destruct (checkPoint (GetFeature layer i) point mode) as [[|]|e] eqn:Hc; eauto.
    apply checkPoint_Ok_lt in Hc. lia.
  - cbn [Lsat.run_loop]. unfold Lsat.loop_step at 1.
    destruct (checkPoint (GetFeature layer i) point mode) as [[|]|e] eqn:Hc; eauto.
    apply checkPoint_Ok_lt in Hc. apply IH. lia.
Qed.

(** What a normal end of the loop says about the index it ends with. *)
Lemma run_loop_Ok_inv layer point mode fuel : forall i k,
  run_loop fuel layer point mode i = Some (Ok k) ->
  (i <= k)%nat
  /\ (fuel >= S (k - i))%nat
  /\ checkPoint (GetFeature layer k) point mode = Ok true
  /\ forall j, (i <= j < k)%nat -> checkPoint (GetFeature layer j) point mode = Ok false.
Proof.
  induction fuel as [|fuel IH]; intros i k; simpl; [discriminate|].
  unfold Lsat.loop_step.
  destruct (checkPoint (GetFeature layer i) point mode) as [[|]|e] eqn:Hc.
  - intros [= <-]. repeat split; [lia | lia | assumption | intros j Hj; lia].
  - intros Hrun. apply IH in Hrun as (Hle & Hfuel & Hk & Hbefore).
    repeat split; [lia | lia | assumption |].
    intros j Hj. destruct (decide (j = i)) as [->|Hne]; [assumption|].
    apply Hbefore. lia.
  - discriminate.
Qed.

(** And what an exceptional end says about the index it was raised at. *)
Lemma run_loop_Raised_inv layer point mode fuel : forall i e,
  run_loop fuel layer point mode i = Some (Raised e) ->
  e = AttributeError
  /\ exists k,
       (i <= k)%nat
       /\ (fuel >= S (k - i))%nat
       /\ checkPoint (GetFeature layer k) point mode = Raised AttributeError
       /\ forall j, (i <= j < k)%nat -> checkPoint (GetFeature layer j) point mode = Ok false.
Proof.
  induction fuel as [|fuel IH]; intros i e; simpl; [discriminate|].
  unfold Lsat.loop_step.
  destruct (checkPoint (GetFeature layer i) point mode) as [[|]|e'] eqn:Hc.
  - discriminate.
  - intros Hrun. apply IH in Hrun as (-> & k & Hle & Hfuel & Hk & Hbefore).
    split; [reflexivity|]. exists k. repeat split; [lia | lia | assumption |].
    intros j Hj. destruct (decide (j = i)) as [->|Hne]; [assumption|].
    apply Hbefore. lia.
  - intros [= <-]. pose proof Hc as Hc'. apply checkPoint_raises in Hc' as [-> _].
    split; [reflexivity|]. exists i. repeat split; [lia | lia | assumption |].
    intros j Hj. lia.
Qed.

(** Tests that return False only move the loop on. *)
Lemma run_loop_skip layer point mode k :
  (forall j, (j < k)%nat -> checkPoint (GetFeature layer j) point mode = Ok false) ->
  forall d i fuel, (i + d = k)%nat ->
  run_loop (d + fuel) layer point mode i = run_loop fuel layer point mode k.
Proof.
  intros Hbefore. induction d as [|d IH]; intros i fuel Hi.
  - assert (i = k) as -> by lia. reflexivity.
  - cbn [Nat.add Lsat.run_loop]. unfold Lsat.loop_step at 1.
    rewrite (Hbefore i) by lia. apply IH. lia.
Qed.

(** The loop is still running after [k] such tests. *)
Lemma run_loop_before layer point mode k fuel :
  (forall j, (j < k)%nat -> checkPoint (GetFeature layer j) point mode = Ok false) ->
  (fuel <= k)%nat ->
  run_loop fuel layer point mode 0 = None.
Proof.
  intros Hbefore Hle.
  assert (Hsome : forall r, run_loop fuel layer point mode 0 = Some r -> False).
  { intros r Hr.
    pose proof (run_loop_more _ _ _ _ k _ _ Hr Hle) as Hr'.
    rewrite <- (Nat.add_0_r k) in Hr'.
    rewrite (run_loop_skip layer point mode k Hbefore k 0%nat 0%nat) in Hr' by lia.
    discriminate Hr'. }
  destruct (run_loop fuel layer point mode 0) as [r|]; [destruct (Hsome r eq_refl) | reflexivity].
Qed.

(** A feature of the layer that passes the test has an index that does. *)
Lemma match_has_index layer point mode feature :
  feature ∈ layer -> checkPoint (Some feature) point mode = Ok true ->
  exists n, checkPoint (GetFeature layer n) point mode = Ok true.
Proof.
  intros Hin Hc. apply list_elem_of_lookup in Hin as [n Hn].
  exists n. unfold GetFeature. rewrite Hn. assumption.
Qed.

Lemma index_has_match layer point mode n :
  checkPoint (GetFeature layer n) point mode = Ok true ->
  exists feature, feature ∈ layer /\ checkPoint (Some feature) point mode = Ok true.
Proof.
  unfold GetFeature. destruct (layer !! n) as [feature|] eqn:Hn; [|discriminate].
  intros Hc. exists feature. split; [|assumption].
  apply list_elem_of_lookup. eauto.
Qed.

(** The attribute reads after a normal end of the loop. *)
Lemma lookup_after_scan layer point mode k feature :
  scan layer point mode 0 = Ok k -> GetFeature layer k = Some feature ->
  lookup layer point mode = Ok (PATH feature, ROW feature)
  /\ cell_stdout layer point mode
     = Ok (py_print ["Path: "; py_str (PATH feature); "Row: "; py_str (ROW feature)]).
Proof.
  intros Hscan Hget. unfold Lsat.cell_stdout, Lsat.lookup.
  rewrite Hscan. simpl. rewrite Hget. simpl. auto.
Qed.

Lemma lookup_after_raise layer point mode e :
  scan layer point mode 0 = Raised e ->
  lookup layer point mode = Raised e /\ cell_stdout layer point mode = Raised e.
Proof.
  intros Hscan. unfold Lsat.cell_stdout, Lsat.lookup. rewrite Hscan. simpl. auto.
Qed.

(** A feature that passes with every earlier feature failing is where the
    loop stops. *)
Lemma scan_stops_at layer point mode k feature :
  GetFeature layer k = Some feature ->
  checkPoint (Some feature) point mode = Ok true ->
  (forall j, (j < k)%nat -> checkPoint (GetFeature layer j) point mode = Ok false) ->
  scan layer point mode 0 = Ok k
  /\ run_loop (S k) layer point mode 0 = Some (Ok k)
  /\ lookup layer point mode = Ok (PATH feature, ROW feature)
  /\ cell_stdout layer point mode
     = Ok (py_print ["Path: "; py_str (PATH feature); "Row: "; py_str (ROW feature)]).
Proof.
  intros Hget Hk Hbefore.
  assert (Hrun : run_loop (S k) layer point mode 0 = Some (Ok k)).
  { replace (S k) with (k + 1)%nat by lia.
    rewrite (run_loop_skip layer point mode k Hbefore k 0%nat 1%nat) by lia.
    simpl. unfold Lsat.loop_step. rewrite Hget, Hk. reflexivity. }
  pose proof (run_loop_scan _ _ _ _ _ _ Hrun) as Hscan.
  destruct (lookup_after_scan layer point mode k feature Hscan Hget) as [Hlook Hout].
  auto.
Qed.

(** A test that raises with every earlier feature failing is where the
    cell ends. *)
Lemma scan_raises_at layer point mode k e :
  checkPoint (GetFeature layer k) point mode = Raised e ->
  (forall j, (j < k)%nat -> checkPoint (GetFeature layer j) point mode = Ok false) ->
  scan layer point mode 0 = Raised e
  /\ run_loop (S k) layer point mode 0 = Some (Raised e)
  /\ lookup layer point mode = Raised e
  /\ cell_stdout layer point mode = Raised e.
Proof.
  intros Hk Hbefore.
  assert (Hrun : run_loop (S k) layer point mode 0 = Some (Raised e)).
  { replace (S k) with (k + 1)%nat by lia.
    rewrite (run_loop_skip layer point mode k Hbefore k 0%nat 1%nat) by lia.
    simpl. unfold Lsat.loop_step. rewrite Hk. reflexivity. }
  pose proof (run_loop_scan _ _ _ _ _ _ Hrun) as Hscan.
  destruct (lookup_after_raise layer point mode e Hscan) as [Hlook Hout].
  auto.
Qed.

(** Every run of the loop has an index it ends at: the first one whose
    test does not return False.  The test there returns True, or raises. *)
Lemma loop_stop layer point mode :
  exists k,
    (k <= length layer)%nat
    /\ (forall j, (j < k)%nat -> checkPoint (GetFeature layer j) point mode = Ok false)
    /\ ((exists feature, GetFeature layer k = Some feature
                         /\ checkPoint (Some feature) point mode = Ok true)
        \/ checkPoint (GetFeature layer k) point mode = Raised AttributeError).
Proof.
  destruct (run_loop_ends layer point mode (length layer) 0) as [[k|e] Hr]; [lia| |].
  - apply run_loop_Ok_inv in Hr as (_ & _ & Hk & Hbefore).
    exists k. pose proof (checkPoint_Ok_lt _ _ _ _ _ Hk) as Hlt.
    split; [lia|]. split; [intros j Hj; apply Hbefore; lia|]. left.
    destruct (GetFeature layer k) as [feature|] eqn:Hget; [eauto | discriminate].
  - apply run_loop_Raised_inv in Hr as (_ & k & _ & Hfuel & Hk & Hbefore).
    exists k. split; [lia|]. split; [intros j Hj; apply Hbefore; lia|]. right. exact Hk.
Qed.

(** The loop with a match that no feature without a geometry precedes:
    where it stops, after how many tests, and what the cell reads and prints
    there. *)
Lemma loop_finds_least layer point mode n :
  checkPoint (GetFeature layer n) point mode = Ok true ->
  (forall j, (j < n)%nat -> exists b, checkPoint (GetFeature layer j) point mode = Ok b) ->
  exists k feature,
    (k <= n)%nat
    /\ GetFeature layer k = Some feature
    /\ checkPoint (Some feature) point mode = Ok true
    /\ (forall j, (j < k)%nat -> checkPoint (GetFeature layer j) point mode = Ok false)
    /\ run_loop (S k) layer point mode 0 = Some (Ok k)
    /\ scan layer point mode 0 = Ok k
    /\ lookup layer point mode = Ok (PATH feature, ROW feature)
    /\ cell_stdout layer point mode
       = Ok (py_print ["Path: "; py_str (PATH feature); "Row: "; py_str (ROW feature)]).
Proof.
  intros Hn Hgeom.
  destruct (loop_stop layer point mode) as (k & _ & Hbefore & Hk).
  assert (Hkn : (k <= n)%nat).
  { destruct (decide (k <= n)%nat) as [|Hgt]; [assumption|].
    rewrite Hbefore in Hn by lia. discriminate. }
  destruct Hk as [(feature & Hget & Hk) | Hk].
  - destruct (scan_stops_at layer point mode k feature Hget Hk Hbefore)
      as (Hscan & Hrun & Hlook & Hout).
    exists k, feature. repeat split; assumption.
  - destruct (decide (k = n)) as [->|Hne]; [congruence|].
    destruct (Hgeom k) as [b Hb]; [lia | congruence].
Qed.

(** Stated with the geometries: a match that only features with a geometry
    precede. *)
Lemma geometry_before_tests layer point mode n :
  (forall j feature, (j < n)%nat -> GetFeature layer j = Some feature ->
     GetGeometryRef feature <> None) ->
  (n <= length layer)%nat ->
  forall j, (j < n)%nat -> exists b, checkPoint (GetFeature layer j) point mode = Ok b.
Proof.
  intros Hgeom Hlen j Hj.
  destruct (lookup_lt_is_Some_2 layer j) as [feature Hget]; [lia|].
  eapply checkPoint_Ok_geometry; [exact Hget | eapply Hgeom; eassumption].
Qed.

Lemma tests_before_geometry layer point mode n :
  (forall j, (j < n)%nat -> exists b, checkPoint (GetFeature layer j) point mode = Ok b) ->
  forall j feature, (j < n)%nat -> GetFeature layer j = Some feature ->
    GetGeometryRef feature <> None.
Proof.
  intros Hok j feature Hj Hget Hgeom.
  destruct (Hok j Hj) as [b Hb]. rewrite Hget in Hb.
  destruct (checkPoint_no_geometry feature point mode Hgeom) as [Hr _]. congruence.
Qed.

(** ** The claims about the lookup *)

(** C2, as the code has it.  For every feature that has a geometry, point
    and mode string, [checkPoint] returns True exactly when the point lies
    within the feature's geometry and the feature's MODE attribute equals
    the mode string, and returns False in every other case; for a feature
    without a geometry it raises AttributeError. *)
Theorem checkPoint_spec feature point mode :
  (checkPoint (Some feature) point mode = Ok true
   <-> contains feature point = true /\ MODE feature = mode)
  /\ (checkPoint (Some feature) point mode = Ok false
      <-> GetGeometryRef feature <> None
          /\ ~ (contains feature point = true /\ MODE feature = mode))
  /\ (checkPoint (Some feature) point mode = Raised AttributeError
      <-> GetGeometryRef feature = None)
  /\ (forall geom, GetGeometryRef feature = Some geom ->
        contains feature point = within point (wkt_loads (ExportToWkt geom))).
Proof.
  split; [apply checkPoint_true_iff|]. split; [apply checkPoint_false_iff|]. split.
  - rewrite checkPoint_raises_iff. split; [intros [_ H]; exact H | auto].
  - intros geom Hgeom. apply (checkPoint_geometry feature point mode geom Hgeom).
Qed.

(** C3, as the code has it.  When some feature passes [checkPoint] for the
    point and mode and every feature before it has a geometry, the loop,
    started at index 0, stops at the smallest index whose feature passes,
    and the PATH and ROW the cell reads and prints are those of that
    feature. *)
Theorem lookup_least_index layer point mode :
  (exists n, checkPoint (GetFeature layer n) point mode = Ok true
     /\ forall j feature, (j < n)%nat -> GetFeature layer j = Some feature ->
          GetGeometryRef feature <> None) ->
  exists k feature,
    scan layer point mode 0 = Ok k
    /\ GetFeature layer k = Some feature
    /\ checkPoint (GetFeature layer k) point mode = Ok true
    /\ (forall j, (j < k)%nat -> checkPoint (GetFeature layer j) point mode = Ok false)
    /\ (forall n, checkPoint (GetFeature layer n) point mode = Ok true -> (k <= n)%nat)
    /\ lookup layer point mode = Ok (PATH feature, ROW feature)
    /\ cell_stdout layer point mode
       = Ok (py_print ["Path: "; py_str (PATH feature); "Row: "; py_str (ROW feature)]).
Proof.
  intros (n & Hn & Hgeom).
  pose proof (checkPoint_Ok_lt _ _ _ _ _ Hn) as Hlt.
  destruct (loop_finds_least layer point mode n Hn)
    as (k & feature & _ & Hget & Hk & Hbefore & _ & Hscan & Hlook & Hout).
  { apply geometry_before_tests; [exact Hgeom | lia]. }
  exists k, feature. rewrite Hget. repeat split; try assumption.
  intros m Hm. destruct (decide (k <= m)%nat) as [|Hgt]; [assumption|].
  rewrite Hbefore in Hm by lia. discriminate.
Qed.

(** C4. The loop is a single linear scan and terminates when some feature
    passes [checkPoint]: run step by step it leaves the loop after at most
    one test per feature, and the function defined by well-founded recursion
    on the features not yet visited has that same result.  The loop is left
    normally, at a passing feature, or by the AttributeError of a feature
    without a geometry that comes before every passing one. *)
Theorem scan_terminates layer point mode :
  (exists n, checkPoint (GetFeature layer n) point mode = Ok true) ->
  exists k r,
    (S k <= length layer)%nat
    /\ run_loop (S k) layer point mode 0 = Some r
    /\ (forall fuel, (S k <= fuel)%nat -> run_loop fuel layer point mode 0 = Some r)
    /\ (forall fuel, (fuel <= k)%nat -> run_loop fuel layer point mode 0 = None)
    /\ scan layer point mode 0 = r
    /\ ((r = Ok k /\ checkPoint (GetFeature layer k) point mode = Ok true)
        \/ (r = Raised AttributeError
            /\ exists feature, GetFeature layer k = Some feature
                               /\ GetGeometryRef feature = None)).
Proof.
  intros [n Hn].
  pose proof (checkPoint_Ok_lt _ _ _ _ _ Hn) as Hlt.
  destruct (loop_stop layer point mode) as (k & _ & Hbefore & Hk).
  assert (Hkn : (k <= n)%nat).
  { destruct (decide (k <= n)%nat) as [|Hgt]; [assumption|].
    rewrite Hbefore in Hn by lia. discriminate. }
  destruct Hk as [(feature & Hget & Hk) | Hk].
  - destruct (scan_stops_at layer point mode k feature Hget Hk Hbefore)
      as (Hscan & Hrun & _).
    exists k, (Ok k). split; [lia|]. split; [exact Hrun|]. split.
    { intros fuel Hle. eapply run_loop_more; eassumption. }
    split; [intros fuel Hle; eapply run_loop_before; eassumption|].
    split; [exact Hscan|]. left. rewrite Hget. auto.
  - destruct (scan_raises_at layer point mode k _ Hk Hbefore) as (Hscan & Hrun & _).
    exists k, (Raised AttributeError). split; [lia|]. split; [exact Hrun|]. split.
    { intros fuel Hle. eapply run_loop_more; eassumption. }
    split; [intros fuel Hle; eapply run_loop_before; eassumption|].
    split; [exact Hscan|]. right. split; [reflexivity|].
    apply checkPoint_raises in Hk as [_ [Hlen | Hnull]]; [lia | exact Hnull].
Qed.

(** C5, as the code has it.  The lookup handles no error itself: it
    completes normally exactly when some feature of the layer passes
    [checkPoint] and every feature before it has a geometry.  Otherwise an
    exception ends the cell: that of the test of a feature without a
    geometry, or, when the loop has tested every feature, that of the test
    at the index after the last one. *)
Theorem lookup_completes_iff layer point mode :
  (is_Ok (cell_stdout layer point mode)
   <-> exists n, checkPoint (GetFeature layer n) point mode = Ok true
         /\ forall j feature, (j < n)%nat -> GetFeature layer j = Some feature ->
              GetGeometryRef feature <> None)
  /\ (is_Ok (lookup layer point mode) <-> is_Ok (cell_stdout layer point mode))
  /\ (is_Raised (cell_stdout layer point mode)
      <-> ~ exists n, checkPoint (GetFeature layer n) point mode = Ok true
            /\ forall j feature, (j < n)%nat -> GetFeature layer j = Some feature ->
                 GetGeometryRef feature <> None)
  /\ (is_Raised (cell_stdout layer point mode) ->
        exists k,
          (forall j, (j < k)%nat -> checkPoint (GetFeature layer j) point mode = Ok false)
          /\ run_loop k layer point mode 0 = None
          /\ checkPoint (GetFeature layer k) point mode = Raised AttributeError
          /\ (k = length layer
              \/ exists feature, GetFeature layer k = Some feature
                                 /\ GetGeometryRef feature = None)
          /\ run_loop (S k) layer point mode 0 = Some (Raised AttributeError)
          /\ scan layer point mode 0 = Raised AttributeError
          /\ lookup layer point mode = Raised AttributeError
          /\ cell_stdout layer point mode = Raised AttributeError)
  /\ ((forall feature, feature ∈ layer -> checkPoint (Some feature) point mode = Ok false) ->
        run_loop (length layer) layer point mode 0 = None
        /\ checkPoint (GetFeature layer (length layer)) point mode = Raised AttributeError
        /\ cell_stdout layer point mode = Raised AttributeError).
Proof.
  destruct (loop_stop layer point mode) as (k & Hlen & Hbefore & Hk).
  assert (Hlook : is_Ok (lookup layer point mode) <-> is_Ok (cell_stdout layer point mode)).
  { split.
    - intros [pr Hpr]. unfold Lsat.cell_stdout. rewrite Hpr. destruct pr. eexists. reflexivity.
    - intros [out Hout]. unfold Lsat.cell_stdout in Hout.
      destruct (lookup layer point mode) as [pr|e]; [eexists; reflexivity | discriminate]. }
  assert (Hlast : (forall feature, feature ∈ layer ->
                     checkPoint (Some feature) point mode = Ok false) ->
                  run_loop (length layer) layer point mode 0 = None
                  /\ checkPoint (GetFeature layer (length layer)) point mode
                     = Raised AttributeError
                  /\ cell_stdout layer point mode = Raised AttributeError).
  { intros Hfail.
    assert (Hall : forall j, (j < length layer)%nat ->
              checkPoint (GetFeature layer j) point mode = Ok false).
    { intros j Hj. destruct (lookup_lt_is_Some_2 layer j Hj) as [feature Hget].
      unfold GetFeature. rewrite Hget. apply Hfail. apply list_elem_of_lookup. eauto. }
    assert (Hend : checkPoint (GetFeature layer (length layer)) point mode
                   = Raised AttributeError).
    { apply checkPoint_raises. split; [reflexivity|]. left. lia. }
    destruct (scan_raises_at layer point mode (length layer) _ Hend Hall)
      as (_ & _ & _ & Hout).
    split; [eapply run_loop_before; [exact Hall | lia]|]. auto. }
  destruct Hk as [(feature & Hget & Hk) | Hk].
  - destruct (scan_stops_at layer point mode k feature Hget Hk Hbefore)
      as (Hscan & Hrun & Hl & Hout).
    assert (Hex : exists n, checkPoint (GetFeature layer n) point mode = Ok true
              /\ forall j feature, (j < n)%nat -> GetFeature layer j = Some feature ->
                   GetGeometryRef feature <> None).
    { exists k. rewrite Hget. split; [exact Hk|].
      apply (tests_before_geometry layer point mode k).
      intros j Hj. rewrite Hbefore by assumption. eauto. }
    split; [split; [intros _; exact Hex | intros _; eexists; exact Hout]|].
    split; [exact Hlook|].
    split; [split; [intros [e He]; congruence | intros Hno; destruct (Hno Hex)]|].
    split; [intros [e He]; congruence | exact Hlast].
  - destruct (scan_raises_at layer point mode k _ Hk Hbefore)
      as (Hscan & Hrun & Hl & Hout).
    assert (Hno : ~ exists n, checkPoint (GetFeature layer n) point mode = Ok true
              /\ forall j feature, (j < n)%nat -> GetFeature layer j = Some feature ->
                   GetGeometryRef feature <> None).
    { intros (n & Hn & Hgeom).
      pose proof (checkPoint_Ok_lt _ _ _ _ _ Hn) as Hlt.
      destruct (decide (n < k)%nat) as [Hnk | Hnk].
      - rewrite Hbefore in Hn by assumption. discriminate.
      - destruct (decide (n = k)) as [->|Hne]; [congruence|].
        destruct (geometry_before_tests layer point mode n Hgeom ltac:(lia) k ltac:(lia))
          as [b Hb].
        congruence. }
    split; [split; [intros [out Ho]; congruence | intros Hex; destruct (Hno Hex)]|].
    split; [exact Hlook|].
    split; [split; [intros _; exact Hno | intros _; eexists; exact Hout]|].
    split; [|exact Hlast].
    intros _. exists k. split; [exact Hbefore|].
    split; [eapply run_loop_before; [exact Hbefore | lia]|].
    split; [exact Hk|]. split; [|auto].
    apply checkPoint_raises in Hk as [_ [Hge | Hnull]]; [left; lia | right; exact Hnull].
Qed.

(** C1, as the code has it.  The cell goes from coordinates to the
    path/row identifier: given a point and a mode for which some feature of
    the layer contains the point and has that mode, with only features that
    have a geometry before it, it produces the PATH and ROW of such a
    feature. *)
Theorem lookup_latlon_to_pathrow layer point mode :
  (exists n feature,
     GetFeature layer n = Some feature
     /\ contains feature point = true /\ MODE feature = mode
     /\ forall j feature', (j < n)%nat -> GetFeature layer j = Some feature' ->
          GetGeometryRef feature' <> None) ->
  exists feature,
    feature ∈ layer
    /\ contains feature point = true
    /\ MODE feature = mode
    /\ lookup layer point mode = Ok (PATH feature, ROW feature).
Proof.
  intros (n & f & Hgetn & Hw & Hm & Hgeom).
  assert (Hn : checkPoint (GetFeature layer n) point mode = Ok true).
  { rewrite Hgetn. apply checkPoint_true_iff. auto. }
  pose proof (checkPoint_Ok_lt _ _ _ _ _ Hn) as Hlt.
  destruct (loop_finds_least layer point mode n Hn)
    as (k & feature & _ & Hget & Hk & _ & _ & _ & Hlook & _).
  { apply geometry_before_tests; [exact Hgeom | lia]. }
  apply checkPoint_true_iff in Hk as [Hw' Hm'].
  exists feature. repeat split; try assumption.
  apply list_elem_of_lookup. exists k. exact Hget.
Qed.

(** ** More about the lookup *)

(** X1. Whatever the layer, an answer of the lookup is the PATH and ROW of
    a feature of the requested mode that contains the point, and no feature
    before it in the layer is one. *)
Theorem lookup_sound layer point mode path row :
  lookup layer point mode = Ok (path, row) ->
  exists k feature,
    GetFeature layer k = Some feature
    /\ PATH feature = path /\ ROW feature = row
    /\ MODE feature = mode
    /\ contains feature point = true
    /\ forall j feature', (j < k)%nat -> GetFeature layer j = Some feature' ->
         ~ (contains feature' point = true /\ MODE feature' = mode).
Proof.
  intros Hlook.
  destruct (loop_stop layer point mode) as (k & _ & Hbefore & [(feature & Hget & Hk) | Hk]).
  - destruct (scan_stops_at layer point mode k feature Hget Hk Hbefore)
      as (_ & _ & Hlook' & _).
    rewrite Hlook in Hlook'. injection Hlook' as -> ->.
    apply checkPoint_true_iff in Hk as [Hw Hm].
    exists k, feature. repeat split; try assumption.
    intros j feature' Hj Hget' Hpass. apply checkPoint_true_iff in Hpass.
    specialize (Hbefore j Hj). rewrite Hget', Hpass in Hbefore. discriminate Hbefore.
  - destruct (scan_raises_at layer point mode k _ Hk Hbefore) as (_ & _ & Hraise & _).
    rewrite Hlook in Hraise. discriminate Hraise.
Qed.

(** X2. Features after the first match are never looked at: an answer for
    a layer stays the answer when features are added at its end. *)
Theorem lookup_app_found (layer1 layer2 : Layer OgrGeometry) point mode path row :
  lookup layer1 point mode = Ok (path, row) ->
  lookup (layer1 ++ layer2) point mode = Ok (path, row)
  /\ scan (layer1 ++ layer2) point mode 0 = scan layer1 point mode 0
  /\ cell_stdout (layer1 ++ layer2) point mode = cell_stdout layer1 point mode.
Proof.
  intros Hlook.
  destruct (loop_stop layer1 point mode) as (k & _ & Hbefore & [(feature & Hget & Hk) | Hk]).
  - destruct (scan_stops_at layer1 point mode k feature Hget Hk Hbefore)
      as (Hscan & _ & Hlook' & Hout).
    pose proof (lookup_lt_Some _ _ _ Hget) as Hlt.
    assert (Hsame : forall j, (j <= k)%nat ->
              GetFeature (layer1 ++ layer2) j = GetFeature layer1 j).
    { intros j Hj. unfold GetFeature. apply lookup_app_l. lia. }
    destruct (scan_stops_at (layer1 ++ layer2) point mode k feature)
      as (Hscan2 & _ & Hlook2 & Hout2).
    + rewrite Hsame by lia. exact Hget.
    + exact Hk.
    + intros j Hj. rewrite Hsame by lia. apply Hbefore, Hj.
    + rewrite Hlook2, Hscan2, Hout2, Hscan, Hout.
      rewrite Hlook in Hlook'. rewrite Hlook'. auto.
  - destruct (scan_raises_at layer1 point mode k _ Hk Hbefore) as (_ & _ & Hraise & _).
    rewrite Hlook in Hraise. discriminate Hraise.
Qed.

(** X3. Features that fail the test only delay the answer: put before a
    layer they shift the index the loop ends with and change nothing in
    what the cell reads, prints or raises. *)
Theorem lookup_app_skip (layer1 layer2 : Layer OgrGeometry) point mode :
  (forall feature, feature ∈ layer1 -> checkPoint (Some feature) point mode = Ok false) ->
  scan (layer1 ++ layer2) point mode 0
  = match scan layer2 point mode 0 with
    | Ok k => Ok (length layer1 + k)%nat
    | Raised e => Raised e
    end
  /\ lookup (layer1 ++ layer2) point mode = lookup layer2 point mode
  /\ cell_stdout (layer1 ++ layer2) point mode = cell_stdout layer2 point mode.
Proof.
  intros Hfail.
  assert (Hleft : forall j, (j < length layer1)%nat ->
            checkPoint (GetFeature (layer1 ++ layer2) j) point mode = Ok false).
  { intros j Hj. unfold GetFeature. rewrite lookup_app_l by assumption.
    destruct (lookup_lt_is_Some_2 layer1 j Hj) as [feature Hget]. rewrite Hget.
    apply Hfail. apply list_elem_of_lookup. eauto. }
  assert (Hright : forall j,
            GetFeature (layer1 ++ layer2) (length layer1 + j) = GetFeature layer2 j).
  { intros j. unfold GetFeature. rewrite lookup_app_r by lia. f_equal. lia. }
  destruct (loop_stop layer2 point mode) as (k & _ & Hbefore & Hk).
  assert (Hbefore2 : forall j, (j < length layer1 + k)%nat ->
            checkPoint (GetFeature (layer1 ++ layer2) j) point mode = Ok false).
  { intros j Hj. destruct (decide (j < length layer1)%nat) as [Hlt | Hge].
    - apply Hleft, Hlt.
    - replace j with (length layer1 + (j - length layer1))%nat by lia.
      rewrite Hright. apply Hbefore. lia. }
  destruct Hk as [(feature & Hget & Hk) | Hk].
  - destruct (scan_stops_at layer2 point mode k feature Hget Hk Hbefore)
      as (Hscan & _ & Hlook & Hout).
    destruct (scan_stops_at (layer1 ++ layer2) point mode (length layer1 + k) feature)
      as (Hscan2 & _ & Hlook2 & Hout2).
    + rewrite Hright. exact Hget.
    + exact Hk.
    + exact Hbefore2.
    + rewrite Hscan2, Hlook2, Hout2, Hscan, Hlook, Hout. auto.
  - destruct (scan_raises_at layer2 point mode k _ Hk Hbefore)
      as (Hscan & _ & Hlook & Hout).
    destruct (scan_raises_at (layer1 ++ layer2) point mode (length layer1 + k)
                AttributeError)
      as (Hscan2 & _ & Hlook2 & Hout2).
    + rewrite Hright. exact Hk.
    + exact Hbefore2.
    + rewrite Hscan2, Hlook2, Hout2, Hscan, Hlook, Hout. auto.
Qed.

(** X4. The feature the loop stops at fixes the mode: lookups for two
    different mode strings never end at the same feature, whatever the
    points. *)
Theorem scan_mode_exclusive layer point1 point2 mode1 mode2 k :
  scan layer point1 mode1 0 = Ok k ->
  scan layer point2 mode2 0 = Ok k ->
  mode1 = mode2.
Proof.
  intros H1 H2.
  assert (Hat : forall point mode, scan layer point mode 0 = Ok k ->
            exists feature, GetFeature layer k = Some feature /\ MODE feature = mode).
  { intros point mode Hscan.
    destruct (loop_stop layer point mode)
      as (k' & _ & Hbefore & [(feature & Hget & Hk) | Hk]).
    - destruct (scan_stops_at layer point mode k' feature Hget Hk Hbefore) as (Hscan' & _).
      rewrite Hscan in Hscan'. injection Hscan' as <-.
      apply checkPoint_true_iff in Hk as [_ Hm]. eauto.
    - destruct (scan_raises_at layer point mode k' _ Hk Hbefore) as (Hraise & _).
      rewrite Hscan in Hraise. discriminate Hraise. }
  destruct (Hat _ _ H1) as (f1 & Hget1 & <-).
  destruct (Hat _ _ H2) as (f2 & Hget2 & <-).
  rewrite Hget1 in Hget2. injection Hget2 as <-. reflexivity.
Qed.

(** X5. The cost of the lookup: the loop condition is evaluated once for
    every index up to and including the first one whose test does not
    return False, which is the first passing feature, the first feature
    without a geometry, or the index after the last feature, whichever comes
    first.  A budget of tests runs out exactly when it is smaller than
    that. *)
Theorem run_loop_tests layer point mode :
  exists k,
    (k <= length layer)%nat
    /\ (forall j, (j < k)%nat -> checkPoint (GetFeature layer j) point mode = Ok false)
    /\ (forall fuel, run_loop fuel layer point mode 0 = None <-> (fuel <= k)%nat)
    /\ ((scan layer point mode 0 = Ok k
         /\ checkPoint (GetFeature layer k) point mode = Ok true)
        \/ (scan layer point mode 0 = Raised AttributeError
            /\ checkPoint (GetFeature layer k) point mode = Raised AttributeError
            /\ (k = length layer
                \/ exists feature, GetFeature layer k = Some feature
                                   /\ GetGeometryRef feature = None))).
Proof.
  destruct (loop_stop layer point mode) as (k & Hlen & Hbefore & Hk).
  exists k. split; [exact Hlen|]. split; [exact Hbefore|].
  assert (Hfuel : forall r, run_loop (S k) layer point mode 0 = Some r ->
            forall fuel, run_loop fuel layer point mode 0 = None <-> (fuel <= k)%nat).
  { intros r Hrun fuel. split.
    - intros Hout. destruct (decide (fuel <= k)%nat) as [|Hgt]; [assumption|].
      rewrite (run_loop_more _ _ _ _ fuel _ _ Hrun) in Hout by lia. discriminate Hout.
    - intros Hle. eapply run_loop_before; eassumption. }
  destruct Hk as [(feature & Hget & Hk) | Hk].
  - destruct (scan_stops_at layer point mode k feature Hget Hk Hbefore)
      as (Hscan & Hrun & _).
    split; [exact (Hfuel _ Hrun)|]. left. rewrite Hget. auto.
  - destruct (scan_raises_at layer point mode k _ Hk Hbefore) as (Hscan & Hrun & _).
    split; [exact (Hfuel _ Hrun)|]. right. split; [exact Hscan|]. split; [exact Hk|].
    apply checkPoint_raises in Hk as [_ [Hge | Hnull]]; [left; lia | right; exact Hnull].
Qed.

(** X6. The mode filter is an exact string comparison: when no feature of
    the layer carries the mode string given (another letter case, a
    misspelling, an empty layer), the cell ends with AttributeError whatever
    the point; when moreover every feature has a geometry, every feature is
    tested and the exception is that of the test past the last one. *)
Theorem unknown_mode_raises layer point mode :
  (forall feature, feature ∈ layer -> MODE feature <> mode) ->
  scan layer point mode 0 = Raised AttributeError
  /\ lookup layer point mode = Raised AttributeError
  /\ cell_stdout layer point mode = Raised AttributeError
  /\ ((forall feature, feature ∈ layer -> GetGeometryRef feature <> None) ->
      run_loop (length layer) layer point mode 0 = None
      /\ run_loop (S (length layer)) layer point mode 0 = Some (Raised AttributeError)).
Proof.
  intros Hmode.
  destruct (loop_stop layer point mode) as (k & Hlen & Hbefore & [(feature & Hget & Hk) | Hk]).
  - apply checkPoint_true_iff in Hk as [_ Hm].
    destruct (Hmode feature); [|exact Hm]. apply list_elem_of_lookup. eauto.
  - destruct (scan_raises_at layer point mode k _ Hk Hbefore)
      as (Hscan & Hrun & Hlook & Hout).
    split; [exact Hscan|]. split; [exact Hlook|]. split; [exact Hout|].
    intros Hgeom.
    assert (k = length layer) as ->.
    { apply checkPoint_raises in Hk as [_ [Hge | (feature & Hget & Hnull)]]; [lia|].
      destruct (Hgeom feature); [apply list_elem_of_lookup; eauto | exact Hnull]. }
    split; [eapply run_loop_before; [exact Hbefore | lia] | exact Hrun].
Qed.

End LookupFacts.

(** ** The lookup on explicit layers *)

(** The recorded output of the notebook's fourth cell. *)
Example boulder_stdout :
  q_cell_stdout sample_layer point mode
  = Ok (String.append "Path:  34 Row:  32" (String "010"%char EmptyString)).
Proof. reflexivity. Qed.

(** With a null-shape record in front of the tile that contains Boulder the
    cell raises at that record. *)
Example null_shape_stdout :
  q_checkPoint (Some null_shape_tile) point mode = Raised AttributeError
  /\ q_run_loop 1 null_shape_layer point mode 0 = Some (Raised AttributeError)
  /\ q_cell_stdout null_shape_layer point mode = Raised AttributeError.
Proof. repeat split; reflexivity. Qed.

(** Given the path/row identifier 34/32 of its only tile, the cell does not
    answer with coordinates: no tile contains the point (34, 32), and the
    cell raises. *)
Lemma pathrow_input_refuted :
  ~ converts_pathrow_to_latlon box_wkt box_loads box_within inject_Z boulder_layer.
Proof.
  intros Hclaim.
  destruct (Hclaim (mkFeature (Some (mkBox (-106) 39 (-104) 41)) "D" 34 32))
    as (x & y & Hrun & _).
  - apply list_elem_of_here.
  - vm_compute in Hrun. discriminate.
Qed.

(** On a record with a null shape [checkPoint] does not return False: it
    raises. *)
Lemma checkPoint_null_shape_refuted :
  ~ checkPoint_decides box_wkt box_loads box_within null_shape_tile point mode.
Proof.
  intros [_ Hfalse].
  assert (Hr : q_checkPoint (Some null_shape_tile) point mode = Ok false).
  { apply Hfalse. intros [Hw _]. vm_compute in Hw. discriminate Hw. }
  vm_compute in Hr. discriminate Hr.
Qed.

(** The tile 34/32 passes the test, and the loop never reaches it: the
    null-shape record before it ends the cell. *)
Lemma first_match_not_reached :
  ~ stops_at_first_match box_wkt box_loads box_within null_shape_layer point mode.
Proof.
  intros Hclaim. destruct Hclaim as (k & feature & Hscan & _).
  - exists (mkFeature (Some (mkBox (-106) 39 (-104) 41)) "D" 34 32). split.
    + apply list_elem_of_further, list_elem_of_here.
    + reflexivity.
  - vm_compute in Hscan. discriminate Hscan.
Qed.

(** A feature of the layer passes the test, and the cell does not complete
    normally. *)
Lemma match_without_completion :
  ~ completes_iff_match box_wkt box_loads box_within null_shape_layer point mode.
Proof.
  intros [_ Hclaim]. destruct Hclaim as [out Hout].
  - exists (mkFeature (Some (mkBox (-106) 39 (-104) 41)) "D" 34 32). split.
    + apply list_elem_of_further, list_elem_of_here.
    + reflexivity.
  - vm_compute in Hout. discriminate Hout.
Qed.

Lemma lookup_latlon_to_pathrow_witness :
  exists feature,
    feature ∈ sample_layer
    /\ q_contains feature point = true
    /\ MODE feature = mode
    /\ q_lookup sample_layer point mode = Ok (PATH feature, ROW feature).
Proof.
  apply (lookup_latlon_to_pathrow box_wkt box_loads box_within sample_layer point mode).
  exists 2%nat, (mkFeature (Some (mkBox (-106) 39 (-104) 41)) "D" 34 32).
  split; [reflexivity|]. split; [reflexivity|]. split; [reflexivity|].
  intros j feature' Hj Hget.
  destruct j as [|[|j]]; [| |lia]; injection Hget as <-; discriminate.
Defined.

Lemma lookup_least_index_witness :
  exists k feature,
    q_scan sample_layer point mode 0 = Ok k
    /\ GetFeature sample_layer k = Some feature
    /\ q_checkPoint (GetFeature sample_layer k) point mode = Ok true
    /\ (forall j, (j < k)%nat -> q_checkPoint (GetFeature sample_layer j) point mode = Ok false)
    /\ (forall n, q_checkPoint (GetFeature sample_layer n) point mode = Ok true -> (k <= n)%nat)
    /\ q_lookup sample_layer point mode = Ok (PATH feature, ROW feature)
    /\ q_cell_stdout sample_layer point mode
       = Ok (py_print ["Path: "; py_str (PATH feature); "Row: "; py_str (ROW feature)]).
Proof.
  apply (lookup_least_index box_wkt box_loads box_within sample_layer point mode).
  exists 3%nat. split; [reflexivity|].
  intros j feature Hj Hget.
  destruct j as [|[|[|j]]]; [| | |lia]; injection Hget as <-; discriminate.
Defined.

(** The loop ends within the layer both on the sample layer, normally, and
    on the layer with the null-shape record, by its exception. *)
Lemma scan_terminates_witness :
  (exists n, q_checkPoint (GetFeature null_shape_layer n) point mode = Ok true)
  /\ exists k r,
       (S k <= length null_shape_layer)%nat
       /\ q_run_loop (S k) null_shape_layer point mode 0 = Some r
       /\ (forall fuel, (S k <= fuel)%nat ->
             q_run_loop fuel null_shape_layer point mode 0 = Some r)
       /\ (forall fuel, (fuel <= k)%nat ->
             q_run_loop fuel null_shape_layer point mode 0 = None)
       /\ q_scan null_shape_layer point mode 0 = r
       /\ ((r = Ok k /\ q_checkPoint (GetFeature null_shape_layer k) point mode = Ok true)
           \/ (r = Raised AttributeError
               /\ exists feature, GetFeature null_shape_layer k = Some feature
                                  /\ GetGeometryRef feature = None)).
Proof.
  assert (Hpre : exists n, q_checkPoint (GetFeature null_shape_layer n) point mode = Ok true)
    by (exists 1%nat; reflexivity).
  split; [exact Hpre|].
  exact (scan_terminates box_wkt box_loads box_within null_shape_layer point mode Hpre).
Defined.

(** The error branch is reached for a point no daytime tile covers: all
    four features are tested, and the test at index 4 raises. *)
Lemma lookup_completes_iff_witness :
  q_run_loop 4 sample_layer (Point 0 0)%Q mode 0 = None
  /\ q_cell_stdout sample_layer (Point 0 0)%Q mode = Raised AttributeError.
Proof.
  pose proof (lookup_completes_iff box_wkt box_loads box_within
                sample_layer (Point 0 0)%Q mode) as (_ & _ & _ & _ & Hlast).
  destruct Hlast as (Hloop & _ & Hout).
  - intros feature Hin. unfold sample_layer in Hin.
    repeat (apply elem_of_cons in Hin as [-> | Hin]; [vm_compute; reflexivity|]).
    apply elem_of_nil in Hin. destruct Hin.
  - split; [exact Hloop | exact Hout].
Defined.

(** ** The further properties on the sample layer *)

Lemma lookup_sound_witness :
  exists k feature,
    GetFeature sample_layer k = Some feature
    /\ PATH feature = 34 /\ ROW feature = 32
    /\ MODE feature = mode
    /\ q_contains feature point = true
    /\ forall j feature', (j < k)%nat -> GetFeature sample_layer j = Some feature' ->
         ~ (q_contains feature' point = true /\ MODE feature' = mode).
Proof.
  apply (lookup_sound box_wkt box_loads box_within sample_layer point mode 34 32).
  reflexivity.
Defined.

Lemma lookup_app_found_witness :
  q_lookup (boulder_layer ++ sample_layer) point mode = Ok (34, 32)
  /\ q_scan (boulder_layer ++ sample_layer) point mode 0 = q_scan boulder_layer point mode 0
  /\ q_cell_stdout (boulder_layer ++ sample_layer) point mode
     = q_cell_stdout boulder_layer point mode.
Proof.
  apply (lookup_app_found box_wkt box_loads box_within
           boulder_layer sample_layer point mode 34 32).
  reflexivity.
Defined.

Lemma lookup_app_skip_witness :
  q_scan (take 2 sample_layer ++ boulder_layer) point mode 0
  = match q_scan boulder_layer point mode 0 with
    | Ok k => Ok (length (take 2 sample_layer) + k)%nat
    | Raised e => Raised e
    end
  /\ q_lookup (take 2 sample_layer ++ boulder_layer) point mode
     = q_lookup boulder_layer point mode
  /\ q_cell_stdout (take 2 sample_layer ++ boulder_layer) point mode
     = q_cell_stdout boulder_layer point mode.
Proof.
  apply (lookup_app_skip box_wkt box_loads box_within
           (take 2 sample_layer) boulder_layer point mode).
  intros feature Hin. cbn [take sample_layer] in Hin.
  repeat (apply elem_of_cons in Hin as [-> | Hin]; [vm_compute; reflexivity|]).
  apply elem_of_nil in Hin. destruct Hin.
Defined.

Lemma scan_mode_exclusive_witness : mode = "D".
Proof.
  apply (scan_mode_exclusive box_wkt box_loads box_within
           sample_layer point (Point (-105) 40)%Q mode "D" 2%nat);
    reflexivity.
Defined.

Lemma unknown_mode_raises_witness :
  q_scan sample_layer point "d" 0 = Raised AttributeError
  /\ q_lookup sample_layer point "d" = Raised AttributeError
  /\ q_cell_stdout sample_layer point "d" = Raised AttributeError
  /\ ((forall feature, feature ∈ sample_layer -> GetGeometryRef feature <> None) ->
      q_run_loop (length sample_layer) sample_layer point "d" 0 = None
      /\ q_run_loop (S (length sample_layer)) sample_layer point "d" 0
         = Some (Raised AttributeError)).
Proof.
  apply (unknown_mode_raises box_wkt box_loads box_within sample_layer point "d").
  intros feature Hin. unfold sample_layer in Hin.
  repeat (apply elem_of_cons in Hin as [-> | Hin]; [discriminate|]).
  apply elem_of_nil in Hin. destruct Hin.
Defined.

End LsatFacts.

(** * Properties of the squares cell *)

Module IppFacts.

Import Ipp.

(** ** The block distribution computes the sequential map *)

Lemma block_low_0 len engines : block_low len engines 0 = 0%nat.
Proof. unfold block_low. lia. Qed.

Lemma block_low_mono len engines p :
  (block_low len engines p <= block_low len engines (S p))%nat.
Proof. unfold block_low. lia. Qed.

Lemma block_low_all len engines :
  (0 < engines)%nat -> block_low len engines engines = len.
Proof.
  intros Hpos. unfold block_low.
  pose proof (Nat.mod_upper_bound len engines ltac:(lia)) as Hlt.
  rewrite Nat.min_r by lia.
  pose proof (Nat.div_mod_eq len engines) as Hdiv. lia.
Qed.

(** The first [n] blocks laid end to end are a prefix of the sequence. *)
Lemma partitions_prefix {A} (l : list A) engines n :
  concat (map (getPartition l engines) (seq 0 n))
  = take (block_low (length l) engines n) l.
Proof.
  induction n as [|n IH].
  - rewrite block_low_0. reflexivity.
  - rewrite seq_S, map_app, concat_app, IH. simpl. rewrite app_nil_r.
    unfold getPartition. rewrite take_take_drop. f_equal.
    pose proof (block_low_mono (length l) engines n). lia.
Qed.

Lemma concat_map_map {A B C} (f : A -> B) (g : C -> list A) (ps : list C) :
  concat (map (fun p => map f (g p)) ps) = map f (concat (map g ps)).
Proof.
  induction ps as [|p ps IH]; simpl; [reflexivity|].
  rewrite map_app, IH. reflexivity.
Qed.

(** Refinement: with at least one engine, the distributed job returns what
    the sequential map returns. *)
Lemma engines_map_sync_refines engines A B (f : A -> B) (l : list A) :
  (0 < engines)%nat -> engines_map_sync engines A B f l = map f l.
Proof.
  intros Hpos. unfold engines_map_sync.
  rewrite concat_map_map, partitions_prefix, block_low_all by assumption.
  rewrite take_ge by lia. reflexivity.
Qed.

(** ** The claim about the squares *)

(** C8. When [map_sync] returns what the sequential map returns, the
    squares cell maps [x -> x**2] over [range(1, 28)]: its result is the
    list of the 27 squares 1, 4, 9, ..., 729 of the integers 1 to 27, and
    the square of 28 is not in it. *)
Theorem squares_of_1_to_27
    (map_sync : forall A B : Type, (A -> B) -> list A -> list B) :
  (forall A B (f : A -> B) l, map_sync A B f l = map f l) ->
  squares map_sync
  = [1; 4; 9; 16; 25; 36; 49; 64; 81; 100; 121; 144; 169; 196; 225; 256; 289;
     324; 361; 400; 441; 484; 529; 576; 625; 676; 729]
  /\ length (squares map_sync) = 27%nat
  /\ (forall y, y ∈ squares map_sync <-> exists x, 1 <= x <= 27 /\ y = x ^ 2)
  /\ 28 ^ 2 ∉ squares map_sync.
Proof.
  intros Hseq.
  assert (Heq : squares map_sync = map (fun x => x ^ 2) (py_range 1 28)).
  { unfold squares. apply Hseq. }
  assert (Hmem : forall y, y ∈ squares map_sync <-> exists x, 1 <= x <= 27 /\ y = x ^ 2).
  { intros y. rewrite Heq. unfold py_range.
    change (map (fun x => x ^ 2) (seqZ 1 (28 - 1))) with ((fun x => x ^ 2) <$> seqZ 1 27).
    rewrite list_elem_of_fmap. split.
    - intros (x & -> & Hx). apply elem_of_seqZ in Hx. exists x. split; [lia | reflexivity].
    - intros (x & Hx & ->). exists x. split; [reflexivity|]. apply elem_of_seqZ. lia. }
  split; [rewrite Heq; reflexivity|].
  split; [rewrite Heq; reflexivity|].
  split; [exact Hmem|].
  intros Hin. apply Hmem in Hin as (x & Hx & Hsq). nia.
Qed.

Lemma squares_of_1_to_27_witness :
  squares sequential_map
  = [1; 4; 9; 16; 25; 36; 49; 64; 81; 100; 121; 144; 169; 196; 225; 256; 289;
     324; 361; 400; 441; 484; 529; 576; 625; 676; 729]
  /\ length (squares sequential_map) = 27%nat
  /\ (forall y, y ∈ squares sequential_map <-> exists x, 1 <= x <= 27 /\ y = x ^ 2)
  /\ 28 ^ 2 ∉ squares sequential_map.
Proof.
  apply (squares_of_1_to_27 sequential_map). reflexivity.
Defined.

(** The notebook's cluster of four engines, and the recorded output. *)
Example squares_four_engines :
  squares (engines_map_sync 4) = squares sequential_map.
Proof.
  unfold squares. apply engines_map_sync_refines. lia.
Qed.

Example squares_stdout_recorded :
  squares_stdout (engines_map_sync 4)
  = String.append
      "squares: [1, 4, 9, 16, 25, 36, 49, 64, 81, 100, 121, 144, 169, 196, 225, 256, 289, 324, 361, 400, 441, 484, 529, 576, 625, 676, 729]"
      (String "010"%char EmptyString).
Proof. reflexivity. Qed.

End IppFacts.

(** * Properties of the raster conversion *)

Module SmapFacts.

Import Smap.

Section WithFloat.

Context {F : Type} {PF : PyFloat F} {FS : FileSystem}.
Variable ExportToWkt : SpatialReference -> string.

Local Abbreviation smap2raster := (Smap.smap2raster ExportToWkt).
Local Abbreviation datasets_loop := (Smap.datasets_loop ExportToWkt).
Local Abbreviation call_outcome := (Smap.call_outcome ExportToWkt).
Local Abbreviation raster_of := (Smap.raster_of ExportToWkt).
Local Abbreviation raster_events := (Smap.raster_events ExportToWkt).

Implicit Types (w : world F) (inputFile group dataset : string).

Lemma bind_lift {A B} (r : result A) (k : A -> M B) (w : world F) :
  bind (lift r) k w = match r with Ok a => k a w | Raised e => (w, Raised e) end.
Proof. destruct r; reflexivity. Qed.

Lemma bind_unfold {A B} (m : M A) (k : A -> M B) (w : world F) :
  bind m k w = match m w with
               | (w', Ok a) => k a w'
               | (w', Raised e) => (w', Raised e)
               end.
Proof. reflexivity. Qed.

(** Every call ends in one of the ways [call_outcome] lists.  The proof
    runs the body of [smap2raster] statement by statement. *)
Lemma smap2raster_outcome w inputFile group dataset w' res :
  smap2raster inputFile group dataset w = (w', res) ->
  call_outcome w inputFile group dataset w' res.
Proof.
  intros H.
  unfold Smap.smap2raster in H.
  change (dataset ++ "Raster.tif")%string with (raster_name dataset) in H.
  unfold bind at 1, h5py_File at 1 in H.
  destruct (files w !! resolve inputFile) as [[contents|r0|]|] eqn:Hfile;
    try (injection H as <- <-; apply stopped_early; [reflexivity | left; reflexivity]).
  do 3 (unfold bind at 1, h5_get at 1 in H; cbn [log files] in H; rewrite Hfile in H).
  cbn [trace] in H.
  match type of H with context [bind _ _ ?w] => set (w1 := w) in H end.
  assert (Hearly : forall e, call_outcome w inputFile group dataset w1 (Raised e)).
  { intros e. apply stopped_early; [reflexivity|]. right. subst w1. unfold log, read_events. cbn [trace].
    rewrite <- !app_assoc. reflexivity. }
  rewrite bind_lift in H.
  destruct (contents !! (group ++ "/" ++ dataset)%string) as [data|] eqn:Hdata;
    [|injection H as <- <-; apply Hearly].
  cbn [np_array np_shape] in H. unfold tuple_index at 1 in H.
  destruct (shape data !! 1%nat) as [num_cols|] eqn:Hcols;
    [|injection H as <- <-; apply Hearly].
  cbn [rbind] in H. rewrite bind_lift in H. unfold tuple_index at 1 in H.
  destruct (shape data !! 0%nat) as [num_rows|] eqn:Hrows;
    [|injection H as <- <-; apply Hearly].
  cbn [rbind] in H.
  assert (Hstop : forall e, (w1, Raised e) = (w', res) ->
            call_outcome w inputFile group dataset w' res).
  { intros e [= <- <-]. apply Hearly. }
  destruct (contents !! "cell_lon") as [cell_lon|] eqn:Hlon;
    destruct (contents !! "cell_lat") as [cell_lat|] eqn:Hlat;
    cbn [np_array np_min np_max np_reduce] in H.
  2-4: repeat (rewrite bind_lift in H; cbn [np_array np_min np_max np_reduce py_sub rbind] in H);
       repeat (match type of H with context [match elems ?a with _ => _ end] =>
                 destruct (elems a) end);
       repeat (rewrite bind_lift in H; cbn [py_sub rbind] in H);
       eapply Hstop, H.
  destruct (elems cell_lon) as [|x xs] eqn:Helon;
    [rewrite bind_lift in H; eapply Hstop, H|].
  do 2 (rewrite bind_lift in H; cbv beta iota in H).
  destruct (elems cell_lat) as [|y ys] eqn:Helat;
    [rewrite bind_lift in H; eapply Hstop, H|].
  do 4 (rewrite bind_lift in H; cbn [py_sub rbind] in H).
  match type of H with context [SetGeoTransform _ (Some ?a, ?b, ?c, Some ?d, ?e, ?f)] =>
    set (gt := (a, b, c, d, e, f)) end.
  assert (Hgt : expected_geotransform cell_lon cell_lat num_rows num_cols = Some gt).
  { unfold expected_geotransform, array_min, array_max. rewrite Helon, Helat. reflexivity. }
  set (xsize := int_of_float (float_of_nat num_cols)) in *.
  set (ysize := int_of_float (float_of_nat num_rows)) in *.
  unfold bind at 1, driver_Create at 1 in H.
  change (GetDriverByName "GTiff") with (Some GTiffDriver) in H. cbv iota in H.
  destruct (c_int xsize && c_int ysize && c_int 1) eqn:Hcint; cbn [negb] in H;
    [|eapply Hstop, H].
  destruct ((0 <? xsize) && (0 <? ysize) && (0 <? 1) && creatable (raster_name dataset))
    eqn:Hpos;
    [|unfold bind at 1, SetGeoTransform at 1 in H; eapply Hstop, H].
  apply andb_true_iff in Hpos as [Hpos Hcreat].
  assert (Hx : 0 < xsize <= 2 ^ 31 - 1 /\ 0 < ysize <= 2 ^ 31 - 1).
  { unfold c_int in Hcint.
    repeat (apply andb_true_iff in Hcint as [Hcint ?]).
    repeat (apply andb_true_iff in Hpos as [Hpos ?]). lia. }
  destruct Hx as [Hxs Hys].
  change (replicate (Z.to_nat 1) None) with [@None (ndarray F)] in H.
  unfold bind at 1, SetGeoTransform at 1, update_raster at 1 in H.
  cbn [files log write_file trace RasterXSize RasterYSize DataType GeoTransform Projection Bands] in H.
  rewrite lookup_insert_eq in H.
  unfold bind at 1, SetProjection at 1, update_raster at 1 in H.
  cbn [files log write_file trace RasterXSize RasterYSize DataType GeoTransform Projection Bands] in H.
  rewrite lookup_insert_eq in H.
  match type of H with bind _ _ ?W = _ =>
    assert (Hw3 : W = mkWorld
              (<[resolve (raster_name dataset) := GTiff (raster_of xsize ysize gt None)]>
                 (files w))
              (trace w ++ read_events inputFile group dataset
                       ++ raster_events dataset xsize ysize gt))
  end.
  { subst w1. unfold log, write_file, raster_of, raster_name, read_events, raster_events.
    cbn [files trace]. rewrite !insert_insert_eq, <- !app_assoc. reflexivity. }
  rewrite Hw3 in H. clear Hw3.
  unfold bind at 1, WriteArray at 1 in H. cbn [files] in H.
  rewrite lookup_insert_eq in H.
  match type of H with context [if negb ?c then _ else _] =>
    change (negb c) with false in H end.
  cbv beta iota in H.
  assert (Hmade : forall band res0,
            (res0 = Ok tt /\ shape data = [num_rows; num_cols]
             /\ band = Some (cast_array GDT_Float32 data)
             /\ w' = mkWorld
               (<[resolve (raster_name dataset) := GTiff (raster_of xsize ysize gt band)]>
                  (files w))
               (trace w ++ read_events inputFile group dataset
                        ++ raster_events dataset xsize ysize gt
                        ++ write_events inputFile dataset data))
            \/ (res0 = Raised ValueError /\ band = None
               /\ w' = mkWorld
                  (<[resolve (raster_name dataset) :=
                       GTiff (raster_of xsize ysize gt band)]>
                     (files w))
                  (trace w ++ read_events inputFile group dataset
                           ++ raster_events dataset xsize ysize gt)) ->
            res = res0 ->
            call_outcome w inputFile group dataset w' res).
  { intros band res0 Hcase ->.
    eapply (raster_made ExportToWkt w inputFile group dataset contents data cell_lat cell_lon
              num_rows num_cols gt); try eassumption.
    destruct Hcase as [(-> & Hsh & -> & ->) | (-> & -> & ->)]; [left | right]; auto. }
  destruct (shape data) as [|r [|c [|more rest]]] eqn:Hshape; try discriminate Hcols.
  - injection Hrows as ->. injection Hcols as ->.
    unfold raster_of in H at 1 2.
    cbn [RasterXSize RasterYSize] in H.
    destruct ((Z.of_nat num_cols <=? xsize) && (Z.of_nat num_rows <=? ysize)) eqn:Hfit.
    + unfold h5_close, update_raster, log, write_file in H. cbn [files trace] in H.
      rewrite lookup_insert_eq, insert_insert_eq in H.
      injection H as <- <-.
      eapply (Hmade (Some (cast_array GDT_Float32 data))); [|reflexivity]. left. repeat split.
      unfold raster_of, write_events. cbn [RasterXSize RasterYSize DataType GeoTransform Projection Bands].
      rewrite <- !app_assoc. reflexivity.
    + injection H as <- <-. eapply (Hmade None); [|reflexivity]. right. auto.
  - injection H as <- <-. eapply (Hmade None); [|reflexivity]. right. auto.
Qed.

Lemma new_events_app w fs evs :
  new_events w (mkWorld fs (trace w ++ evs)) = evs.
Proof. unfold new_events. cbn [trace]. apply drop_app_length. Qed.

Lemma c_int_true x : - 2 ^ 31 <= x <= 2 ^ 31 - 1 -> c_int x = true.
Proof. intros Hx. unfold c_int. apply andb_true_iff. split; apply Z.leb_le; lia. Qed.

(** On a ready input the call goes through, and this is the world it
    leaves. *)
Lemma smap2raster_ready w inputFile group dataset
    contents data cell_lat cell_lon num_rows num_cols :
  call_ready w inputFile group dataset contents data cell_lat cell_lon num_rows num_cols ->
  exists gt,
    expected_geotransform cell_lon cell_lat num_rows num_cols = Some gt
    /\ smap2raster inputFile group dataset w
       = (mkWorld
            (<[resolve (raster_name dataset) :=
                 GTiff (raster_of (Z.of_nat num_cols) (Z.of_nat num_rows) gt
                          (Some (cast_array GDT_Float32 data)))]>
               (files w))
            (trace w ++ read_events inputFile group dataset
                     ++ raster_events dataset (Z.of_nat num_cols) (Z.of_nat num_rows) gt
                     ++ write_events inputFile dataset data),
          Ok tt).
Proof.
  intros (Hfile & Hdata & Hlat & Hlon & Hshape & Helat & Helon & Hc & Hr & Hcreat).
  destruct (elems cell_lon) as [|x xs] eqn:Hex; [congruence|].
  destruct (elems cell_lat) as [|y ys] eqn:Hey; [congruence|].
  eexists. split.
  { unfold expected_geotransform, array_min, array_max. rewrite Hex, Hey. reflexivity. }
  unfold Smap.smap2raster.
  change (dataset ++ "Raster.tif")%string with (raster_name dataset).
  unfold bind at 1, h5py_File at 1. rewrite Hfile.
  do 3 (unfold bind at 1, h5_get at 1; cbn [log files]; rewrite Hfile).
  rewrite Hdata, Hlat, Hlon. cbn [np_array np_shape trace]. rewrite Hshape.
  unfold tuple_index.
  change ([num_rows; num_cols] !! 1%nat) with (Some num_cols).
  change ([num_rows; num_cols] !! 0%nat) with (Some num_rows).
  cbn [np_min np_max np_reduce rbind]. rewrite Hex, Hey.
  do 8 (rewrite bind_lift; cbn [py_sub rbind]).
  rewrite !int_of_float_of_nat by lia.
  unfold bind at 1, driver_Create at 1.
  change (GetDriverByName "GTiff") with (Some GTiffDriver). cbv iota.
  rewrite !c_int_true by lia. cbn [andb negb].
  replace (0 <? Z.of_nat num_cols) with true by (symmetry; apply Z.ltb_lt; lia).
  replace (0 <? Z.of_nat num_rows) with true by (symmetry; apply Z.ltb_lt; lia).
  change ((0 <? 1)) with true. rewrite Hcreat. cbn [andb].
  change (replicate (Z.to_nat 1) None) with [@None (ndarray F)].
  unfold bind at 1, SetGeoTransform at 1, update_raster at 1.
  cbn [files log write_file trace RasterXSize RasterYSize DataType GeoTransform Projection Bands].
  rewrite lookup_insert_eq.
  unfold bind at 1, SetProjection at 1, update_raster at 1.
  cbn [files log write_file trace RasterXSize RasterYSize DataType GeoTransform Projection Bands].
  rewrite lookup_insert_eq.
  unfold bind at 1, WriteArray at 1, update_raster at 1.
  cbn [files log write_file trace RasterXSize RasterYSize DataType GeoTransform Projection Bands].
  rewrite !lookup_insert_eq.
  match goal with |- context [if negb ?c then _ else _] =>
    change (negb c) with false end.
  cbv beta iota. rewrite Hshape.
  cbn [RasterXSize RasterYSize].
  replace (Z.of_nat num_cols <=? Z.of_nat num_cols) with true by (symmetry; apply Z.leb_le; lia).
  replace (Z.of_nat num_rows <=? Z.of_nat num_rows) with true by (symmetry; apply Z.leb_le; lia).
  cbn [andb].
  unfold h5_close, log, write_file, Smap.raster_of, read_events,
    Smap.raster_events, write_events.
  cbn [files trace RasterXSize RasterYSize DataType GeoTransform Projection Bands].
  rewrite !insert_insert_eq, <- !app_assoc. reflexivity.
Qed.

Lemma new_events_trace w w' evs :
  trace w' = trace w ++ evs -> new_events w w' = evs.
Proof. intros Htr. unfold new_events. rewrite Htr. apply drop_app_length. Qed.

Lemma new_events_same w w' : trace w' = trace w -> new_events w w' = [].
Proof. intros Htr. apply new_events_trace. rewrite Htr, app_nil_r. reflexivity. Qed.

(** What the outcome says about the trace and the files, in one place. *)
Lemma outcome_events w inputFile group dataset w' res :
  call_outcome w inputFile group dataset w' res ->
  (files w' = files w
   /\ (new_events w w' = [] \/ new_events w w' = read_events inputFile group dataset)
   /\ is_Raised res)
  \/ (exists contents data cell_lat cell_lon num_rows num_cols gt band tail,
        files w !! resolve inputFile = Some (H5 contents)
        /\ contents !! (group ++ "/" ++ dataset)%string = Some data
        /\ contents !! "cell_lat" = Some cell_lat
        /\ contents !! "cell_lon" = Some cell_lon
        /\ shape data !! 0%nat = Some num_rows
        /\ shape data !! 1%nat = Some num_cols
        /\ expected_geotransform cell_lon cell_lat num_rows num_cols = Some gt
        /\ files w' = <[resolve (raster_name dataset) :=
                          GTiff (raster_of (int_of_float (float_of_nat num_cols))
                                           (int_of_float (float_of_nat num_rows)) gt band)]>
                        (files w)
        /\ new_events w w'
           = read_events inputFile group dataset
             ++ raster_events dataset (int_of_float (float_of_nat num_cols))
                              (int_of_float (float_of_nat num_rows)) gt
             ++ tail
        /\ ((res = Ok tt /\ shape data = [num_rows; num_cols]
             /\ band = Some (cast_array GDT_Float32 data)
             /\ tail = write_events inputFile dataset data)
            \/ (res = Raised ValueError /\ band = None /\ tail = []))).
Proof.
  intros [w'' e Hfiles Htrace
         | contents data cell_lat cell_lon num_rows num_cols gt w'' res'
             Hfile Hdata Hlat Hlon Hrows Hcols Hgt xsize ysize Hxs Hys Hcreat Hcase].
  - left. split; [assumption|]. split; [|eexists; reflexivity].
    destruct Htrace as [Htr | Htr];
      [left; apply new_events_same | right; apply new_events_trace]; assumption.
  - right.
    destruct Hcase as [(-> & Hshape & ->) | (-> & ->)].
    + exists contents, data, cell_lat, cell_lon, num_rows, num_cols, gt,
        (Some (cast_array GDT_Float32 data)), (write_events inputFile dataset data).
      repeat split; try assumption; try reflexivity.
      * apply new_events_trace. reflexivity.
      * left. auto.
    + exists contents, data, cell_lat, cell_lon, num_rows, num_cols, gt, None, [].
      repeat split; try assumption; try reflexivity.
      * apply new_events_trace. cbn [trace]. rewrite app_nil_r. reflexivity.
      * right. auto.
Qed.

Lemma run_outcome w inputFile group dataset :
  call_outcome w inputFile group dataset
    (fst (smap2raster inputFile group dataset w))
    (snd (smap2raster inputFile group dataset w)).
Proof.
  apply smap2raster_outcome. destruct (smap2raster inputFile group dataset w). reflexivity.
Qed.

(** What [expected_geotransform] is made of. *)
Lemma expected_geotransform_Some (cell_lon cell_lat : ndarray F) num_rows num_cols gt :
  expected_geotransform cell_lon cell_lat num_rows num_cols = Some gt ->
  exists xmin xmax ymin ymax,
    array_min cell_lon = Some xmin /\ array_max cell_lon = Some xmax
    /\ array_min cell_lat = Some ymin /\ array_max cell_lat = Some ymax
    /\ gt = (xmin, fdiv (fsub xmax xmin) (float_of_nat num_cols), fzero,
             ymax, fzero, fneg (fdiv (fsub ymax ymin) (float_of_nat num_rows))).
Proof.
  unfold expected_geotransform.
  destruct (array_min cell_lon) as [xmin|]; [|discriminate].
  destruct (array_max cell_lon) as [xmax|]; [|discriminate].
  destruct (array_min cell_lat) as [ymin|]; [|discriminate].
  destruct (array_max cell_lat) as [ymax|]; [|discriminate].
  intros [= <-]. exists xmin, xmax, ymin, ymax. auto.
Qed.

(** Membership in an explicit list of events, case by case. *)
Ltac event_cases H :=
  repeat first
    [ apply elem_of_app in H as [H | H]
    | apply elem_of_cons in H as [H | H]
    | apply elem_of_nil in H; destruct H ].

(** ** The claims about [smap2raster] *)

(** C7. The geotransform [smap2raster] sets on the output raster is
    [(xmin, (xmax - xmin)/num_cols, 0, ymax, 0, -((ymax - ymin)/num_rows))],
    with [xmin], [xmax] the extremes of the file's [cell_lon], [ymin], [ymax]
    those of its [cell_lat], and [num_rows], [num_cols] the first two
    dimensions of the data array, which are its whole shape when the call
    completes. *)
Theorem smap2raster_geotransform w inputFile group dataset name gt :
  EvSetGeoTransform name gt
    ∈ new_events w (fst (smap2raster inputFile group dataset w)) ->
  exists contents data cell_lon cell_lat num_rows num_cols xmin xmax ymin ymax r,
    files w !! resolve inputFile = Some (H5 contents)
    /\ contents !! "cell_lon" = Some cell_lon
    /\ contents !! "cell_lat" = Some cell_lat
    /\ contents !! (group ++ "/" ++ dataset)%string = Some data
    /\ shape data !! 0%nat = Some num_rows
    /\ shape data !! 1%nat = Some num_cols
    /\ (snd (smap2raster inputFile group dataset w) = Ok tt ->
        shape data = [num_rows; num_cols])
    /\ array_min cell_lon = Some xmin /\ array_max cell_lon = Some xmax
    /\ array_min cell_lat = Some ymin /\ array_max cell_lat = Some ymax
    /\ name = raster_name dataset
    /\ gt = (xmin, fdiv (fsub xmax xmin) (float_of_nat num_cols), fzero,
             ymax, fzero, fneg (fdiv (fsub ymax ymin) (float_of_nat num_rows)))
    /\ files (fst (smap2raster inputFile group dataset w)) !! resolve (raster_name dataset)
       = Some (GTiff r)
    /\ GeoTransform r = Some gt.
Proof.
  intros Hin.
  destruct (outcome_events _ _ _ _ _ _ (run_outcome w inputFile group dataset))
    as [(_ & Hev & _)
       | (contents & data & cell_lat & cell_lon & num_rows & num_cols & gt' & band & tail
          & Hfile & Hdata & Hlat & Hlon & Hrows & Hcols & Hgt & Hfiles & Hev & Hcase)].
  - destruct Hev as [Hev | Hev]; rewrite Hev in Hin; unfold read_events in Hin;
      event_cases Hin; discriminate Hin.
  - rewrite Hev in Hin.
    assert (Hname : name = raster_name dataset /\ gt = gt').
    { destruct Hcase as [(_ & _ & _ & ->) | (_ & _ & ->)];
        unfold read_events, Smap.raster_events, write_events in Hin;
        event_cases Hin; try discriminate Hin; injection Hin as -> ->; auto. }
    destruct Hname as [-> ->].
    destruct (expected_geotransform_Some _ _ _ _ _ Hgt)
      as (xmin & xmax & ymin & ymax & Hxmin & Hxmax & Hymin & Hymax & Hgt').
    exists contents, data, cell_lon, cell_lat, num_rows, num_cols, xmin, xmax, ymin, ymax.
    eexists.
    split; [exact Hfile|]. split; [exact Hlon|]. split; [exact Hlat|].
    split; [exact Hdata|]. split; [exact Hrows|]. split; [exact Hcols|].
    split.
    { intros Hok. destruct Hcase as [(_ & Hshape & _) | (Hres & _)]; [assumption|].
      rewrite Hok in Hres. discriminate Hres. }
    split; [exact Hxmin|]. split; [exact Hxmax|].
    split; [exact Hymin|]. split; [exact Hymax|].
    split; [reflexivity|]. split; [exact Hgt'|].
    split; [rewrite Hfiles; apply lookup_insert_eq|].
    reflexivity.
Qed.

(** C9, as the code has it.  Every call of [smap2raster] that creates a
    raster creates it with one band, pixel type Float32, the EPSG:4326
    projection, and as width and height [int(float(n))] of the second and the
    first dimension [n] of the data array, which is [n] itself below 2^53;
    the datasets it reads are the one named by group and dataset and the
    top-level [cell_lat] and [cell_lon]. *)
Theorem smap2raster_created_raster w inputFile group dataset :
  raster_name dataset
    ∈ created_names (new_events w (fst (smap2raster inputFile group dataset w))) ->
  exists contents data num_rows num_cols r,
    files w !! resolve inputFile = Some (H5 contents)
    /\ contents !! (group ++ "/" ++ dataset)%string = Some data
    /\ shape data !! 0%nat = Some num_rows
    /\ shape data !! 1%nat = Some num_cols
    /\ files (fst (smap2raster inputFile group dataset w)) !! resolve (raster_name dataset)
       = Some (GTiff r)
    /\ RasterCount r = 1
    /\ DataType r = GDT_Float32
    /\ Projection r = ExportToWkt (srs_EPSG 4326)
    /\ RasterXSize r = int_of_float (float_of_nat num_cols)
    /\ RasterYSize r = int_of_float (float_of_nat num_rows)
    /\ (Z.of_nat num_cols < 2 ^ 53 -> RasterXSize r = Z.of_nat num_cols)
    /\ (Z.of_nat num_rows < 2 ^ 53 -> RasterYSize r = Z.of_nat num_rows)
    /\ h5_reads (new_events w (fst (smap2raster inputFile group dataset w)))
       = [(group ++ "/" ++ dataset)%string; "cell_lat"; "cell_lon"].
Proof.
  intros Hin.
  destruct (outcome_events _ _ _ _ _ _ (run_outcome w inputFile group dataset))
    as [(_ & Hev & _)
       | (contents & data & cell_lat & cell_lon & num_rows & num_cols & gt & band & tail
          & Hfile & Hdata & Hlat & Hlon & Hrows & Hcols & Hgt & Hfiles & Hev & Hcase)].
  - destruct Hev as [Hev | Hev]; rewrite Hev in Hin; cbn in Hin;
      apply elem_of_nil in Hin; destruct Hin.
  - exists contents, data, num_rows, num_cols. eexists.
    split; [exact Hfile|]. split; [exact Hdata|]. split; [exact Hrows|].
    split; [exact Hcols|].
    split; [rewrite Hfiles; apply lookup_insert_eq|].
    cbn [Smap.raster_of RasterXSize RasterYSize DataType Projection].
    repeat split.
    + intros Hlt. apply int_of_float_of_nat, Hlt.
    + intros Hlt. apply int_of_float_of_nat, Hlt.
    + rewrite Hev. destruct Hcase as [(_ & _ & _ & ->) | (_ & _ & ->)]; reflexivity.
Qed.

(** C10, as the code has it.  [smap2raster] opens its input file and no
    other, read-only, and has closed it when it returns; the only name it
    creates or writes a file under is that of the raster, the dataset name
    with [Raster.tif] appended; so every file that name does not reach is as
    it was before, and the input file is, unless the raster name reaches
    it. *)
Theorem smap2raster_frame w inputFile group dataset :
  let w' := fst (smap2raster inputFile group dataset w) in
  (forall name mode, EvOpen name mode ∈ new_events w w' ->
     name = inputFile /\ mode = mode_r)
  /\ (snd (smap2raster inputFile group dataset w) = Ok tt ->
      exists evs, new_events w w' = EvOpen inputFile mode_r :: evs ++ [EvClose inputFile])
  /\ (forall ev name, ev ∈ new_events w w' -> written_name ev = Some name ->
        name = raster_name dataset)
  /\ (forall p, p <> resolve (raster_name dataset) -> files w' !! p = files w !! p)
  /\ (resolve inputFile <> resolve (raster_name dataset) ->
      files w' !! resolve inputFile = files w !! resolve inputFile).
Proof.
  intros w'.
  assert (Hframe : forall p, p <> resolve (raster_name dataset) ->
            files w' !! p = files w !! p).
  { intros p Hp.
    destruct (outcome_events _ _ _ _ _ _ (run_outcome w inputFile group dataset))
      as [(Hfiles & _ & _)
         | (contents & data & cell_lat & cell_lon & num_rows & num_cols & gt & band & tail
            & _ & _ & _ & _ & _ & _ & _ & Hfiles & _ & _)];
      subst w'; rewrite Hfiles; [reflexivity|].
    apply lookup_insert_ne. congruence. }
  destruct (outcome_events _ _ _ _ _ _ (run_outcome w inputFile group dataset))
    as [(Hfiles & Hev & [e Hres])
       | (contents & data & cell_lat & cell_lon & num_rows & num_cols & gt & band & tail
          & Hfile & Hdata & Hlat & Hlon & Hrows & Hcols & Hgt & Hfiles & Hev & Hcase)];
    fold w' in Hev, Hfiles.
  - split; [|split; [|split; [|split]]].
    + intros name mode Hin.
      destruct Hev as [Hev | Hev]; rewrite Hev in Hin; unfold read_events in Hin;
        event_cases Hin; try discriminate Hin. injection Hin as -> ->. auto.
    + intros Hok. rewrite Hok in Hres. discriminate Hres.
    + intros ev name Hin Hwr.
      destruct Hev as [Hev | Hev]; rewrite Hev in Hin; unfold read_events in Hin;
        event_cases Hin; subst ev; discriminate Hwr.
    + exact Hframe.
    + apply Hframe.
  - assert (Htail : tail = write_events inputFile dataset data \/ tail = []).
    { destruct Hcase as [(_ & _ & _ & ->) | (_ & _ & ->)]; auto. }
    split; [|split; [|split; [|split]]].
    + intros name mode Hin. rewrite Hev in Hin.
      destruct Htail as [-> | ->];
        unfold read_events, Smap.raster_events, write_events in Hin;
        event_cases Hin; try discriminate Hin; injection Hin as -> ->; auto.
    + intros Hok. destruct Hcase as [(_ & _ & _ & ->) | (Hres & _)].
      * rewrite Hev.
        exists ([EvGet inputFile (group ++ "/" ++ dataset)%string;
                 EvGet inputFile "cell_lat"; EvGet inputFile "cell_lon"]
                ++ raster_events dataset (int_of_float (float_of_nat num_cols))
                     (int_of_float (float_of_nat num_rows)) gt
                ++ [EvWriteArray (raster_name dataset) 1 data]).
        reflexivity.
      * rewrite Hok in Hres. discriminate Hres.
    + intros ev name Hin Hwr. rewrite Hev in Hin.
      destruct Htail as [-> | ->];
        unfold read_events, Smap.raster_events, write_events in Hin;
        event_cases Hin; subst ev; try discriminate Hwr;
        injection Hwr as <-; reflexivity.
    + exact Hframe.
    + apply Hframe.
Qed.

(** ** The loop over the dataset names *)

(** The index loop visits the names in list order, once each: it is the
    plain iteration over the list. *)
Lemma for_each_index (body : string -> M unit) (l : list string) :
  forall (pre : list string) (w : world F),
  for_each (seq (length pre) (length l))
    (fun i => bind (lift (tuple_index (pre ++ l) i)) (fun name => body name)) w
  = for_each l body w.
Proof.
  induction l as [|x l IH]; intros pre w; [reflexivity|].
  cbn [length seq for_each]. rewrite !bind_unfold. unfold lift, tuple_index.
  rewrite list_lookup_middle by reflexivity.
  destruct (body x w) as [w1 [[]|e]]; [|reflexivity].
  specialize (IH (pre ++ [x]) w1).
  rewrite length_app in IH. cbn [length] in IH.
  replace (length pre + 1)%nat with (S (length pre)) in IH by lia.
  rewrite <- app_assoc in IH. exact IH.
Qed.

Lemma for_range_loop_for_each (body : string -> M unit) (l : list string) w :
  for_range_loop body l w = for_each l body w.
Proof. apply (for_each_index body l [] w). Qed.

Lemma datasets_loop_cons file_path which_group name rest w :
  datasets_loop file_path which_group (name :: rest) w
  = match smap2raster file_path which_group name w with
    | (w1, Ok _) => datasets_loop file_path which_group rest w1
    | (w1, Raised e) => (w1, Raised e)
    end.
Proof.
  unfold Smap.datasets_loop. rewrite for_range_loop_for_each.
  cbn [for_each]. unfold bind.
  destruct (smap2raster file_path which_group name w) as [w1 [[]|e]]; [|reflexivity].
  rewrite for_range_loop_for_each. reflexivity.
Qed.

Lemma datasets_loop_nil file_path which_group w :
  datasets_loop file_path which_group [] w = (w, Ok tt).
Proof. reflexivity. Qed.

(** The events of a completed call, read. *)
Lemma call_events_created inputFile group dataset xsize ysize gt (data : ndarray F) :
  created_names (read_events inputFile group dataset
                 ++ raster_events dataset xsize ysize gt
                 ++ write_events inputFile dataset data)
  = [raster_name dataset].
Proof. reflexivity. Qed.

Lemma call_events_reads inputFile group dataset xsize ysize gt (data : ndarray F) :
  h5_reads (read_events inputFile group dataset
            ++ raster_events dataset xsize ysize gt
            ++ write_events inputFile dataset data)
  = [(group ++ "/" ++ dataset)%string; "cell_lat"; "cell_lon"].
Proof. reflexivity. Qed.

Lemma created_names_app (evs1 evs2 : list (event F)) :
  created_names (evs1 ++ evs2) = created_names evs1 ++ created_names evs2.
Proof. apply omap_app. Qed.

Lemma h5_reads_app (evs1 evs2 : list (event F)) :
  h5_reads (evs1 ++ evs2) = h5_reads evs1 ++ h5_reads evs2.
Proof. apply omap_app. Qed.

(** The loop on a ready input, by induction on the list of names. *)
Lemma datasets_loop_ready file_path which_group datasets : forall w,
  loop_ready w file_path which_group datasets ->
  exists w' evs,
    datasets_loop file_path which_group datasets w = (w', Ok tt)
    /\ trace w' = trace w ++ evs
    /\ created_names evs = map raster_name datasets
    /\ h5_reads evs
       = concat (map (fun name => [(which_group ++ "/" ++ name)%string;
                                   "cell_lat"; "cell_lon"]) datasets)
    /\ (forall name, name ∈ datasets ->
          exists r, files w' !! resolve (raster_name name) = Some (GTiff r))
    /\ (forall p, p ∉ map (fun name => resolve (raster_name name)) datasets ->
          files w' !! p = files w !! p).
Proof.
  induction datasets as [|name rest IH]; intros w Hready.
  - exists w, []. rewrite datasets_loop_nil, app_nil_r.
    repeat split; try reflexivity.
    intros name Hin. apply elem_of_nil in Hin. destruct Hin.
  - destruct (Hready name) as
      (Hne & contents & data & cell_lat & cell_lon & num_rows & num_cols & Hcall);
      [apply list_elem_of_here|].
    destruct (smap2raster_ready _ _ _ _ _ _ _ _ _ _ Hcall) as (gt & _ & Hrun).
    match type of Hrun with _ = (?W, _) => set (w1 := W) in * end.
    assert (Hkeep : files w1 !! resolve file_path = files w !! resolve file_path).
    { subst w1. cbn [files]. apply lookup_insert_ne. exact Hne. }
    assert (Hready1 : loop_ready w1 file_path which_group rest).
    { intros n Hn. destruct (Hready n) as (Hne' & c & d & la & lo & nr & nc & Hc);
        [apply list_elem_of_further, Hn|].
      split; [exact Hne'|]. exists c, d, la, lo, nr, nc.
      destruct Hc as (Hfile & Hrest). split; [|exact Hrest]. rewrite Hkeep. exact Hfile. }
    destruct (IH w1 Hready1) as (w' & evs & Hloop & Htrace & Hcreated & Hreads & Hmade & Hframe).
    exists w'. eexists.
    split; [rewrite datasets_loop_cons, Hrun; exact Hloop|].
    split; [rewrite Htrace; subst w1; cbn [trace]; rewrite <- app_assoc; reflexivity|].
    split; [rewrite created_names_app, call_events_created, Hcreated; reflexivity|].
    split; [rewrite h5_reads_app, call_events_reads, Hreads; reflexivity|].
    split.
    + intros n Hn. apply elem_of_cons in Hn as [-> | Hn]; [|apply Hmade, Hn].
      destruct (decide (resolve (raster_name name)
                          ∈ map (fun name => resolve (raster_name name)) rest))
        as [Hdup | Hfresh].
      * change (map (fun name => resolve (raster_name name)) rest)
          with ((fun name => resolve (raster_name name)) <$> rest) in Hdup.
        apply list_elem_of_fmap in Hdup as (n' & Heq & Hn').
        rewrite Heq. apply Hmade, Hn'.
      * rewrite (Hframe _ Hfresh). subst w1. cbn [files].
        rewrite lookup_insert_eq. eexists. reflexivity.
    + intros p Hp. cbn [map] in Hp. apply not_elem_of_cons in Hp as [Hp1 Hp2].
      rewrite (Hframe _ Hp2). subst w1. cbn [files].
      apply lookup_insert_ne. congruence.
Qed.

(** C6, as the code has it.  On an input on which every call completes
    (each name a two-dimensional dataset of the group, of a size the driver
    accepts, in an HDF5 file with non-empty [cell_lat] and [cell_lon]; each
    raster name one a file can be created under, and none reaching the input
    file), the loop passes each name to [smap2raster] once, in list order,
    and each call makes the raster file named after its dataset; the files
    those names reach apart, the files are unchanged. *)
Theorem datasets_loop_makes_rasters w file_path which_group datasets :
  loop_ready w file_path which_group datasets ->
  exists w',
    datasets_loop file_path which_group datasets w = (w', Ok tt)
    /\ (forall w0, datasets_loop file_path which_group datasets w0
                   = for_each datasets (smap2raster file_path which_group) w0)
    /\ created_names (new_events w w') = map raster_name datasets
    /\ h5_reads (new_events w w')
       = concat (map (fun name => [(which_group ++ "/" ++ name)%string;
                                   "cell_lat"; "cell_lon"]) datasets)
    /\ (forall name, name ∈ datasets ->
          exists r, files w' !! resolve (raster_name name) = Some (GTiff r))
    /\ (forall p, p ∉ map (fun name => resolve (raster_name name)) datasets ->
          files w' !! p = files w !! p).
Proof.
  intros Hready.
  destruct (datasets_loop_ready file_path which_group datasets w Hready)
    as (w' & evs & Hloop & Htrace & Hcreated & Hreads & Hmade & Hframe).
  exists w'. rewrite (new_events_trace _ _ _ Htrace).
  repeat split; try assumption.
  intros w0. apply for_range_loop_for_each.
Qed.

(** ** More about [smap2raster]: how a call fails *)

(** The world once the file is open and the three datasets are asked for. *)
Lemma reads_world w (a b c d : event F) :
  log d (log c (log b (log a w))) = mkWorld (files w) (trace w ++ [a; b; c; d]).
Proof. unfold log. cbn [files trace]. rewrite <- !app_assoc. reflexivity. Qed.

(** Running the first four statements of the body. *)
Ltac eval_reads Hfile :=
  unfold Smap.smap2raster;
  match goal with
  | |- context [driver_Create _ (String.append ?d "Raster.tif")] =>
      change (String.append d "Raster.tif") with (raster_name d)
  end;
  unfold bind at 1, h5py_File at 1; rewrite Hfile;
  do 3 (unfold bind at 1, h5_get at 1; cbn [log files]; rewrite Hfile);
  cbn [trace]; rewrite reads_world; fold (read_events (F := F)).

(** Running the two reads of the shape, for a dataset with two dimensions
    at least. *)
Ltac eval_shape Hdata Hrows Hcols :=
  rewrite Hdata; cbn [np_array np_shape]; unfold tuple_index;
  rewrite Hrows, Hcols; cbn [rbind];
  do 2 (rewrite bind_lift; cbv beta iota).

(** X7. A file that is not there, or is not an HDF5 file, stops the call at
    once: the open raises and nothing at all has happened. *)
Theorem smap2raster_unreadable w inputFile group dataset :
  (forall contents, files w !! resolve inputFile <> Some (H5 contents)) ->
  smap2raster inputFile group dataset w = (w, Raised OSError).
Proof.
  intros Hnot. unfold Smap.smap2raster. unfold bind at 1, h5py_File at 1.
  destruct (files w !! resolve inputFile) as [[contents | r | ]|] eqn:Hfile; try reflexivity.
  destruct (Hnot contents eq_refl).
Qed.

(** X8. A dataset name the file does not have, or one of a dataset with
    fewer than two dimensions, ends the call with IndexError at
    [np_data.shape[1]]: the file has been opened and read, no raster is made
    and the directory is as before. *)
Theorem smap2raster_no_grid w inputFile group dataset contents :
  files w !! resolve inputFile = Some (H5 contents) ->
  (forall data, contents !! (group ++ "/" ++ dataset)%string = Some data ->
     (length (shape data) < 2)%nat) ->
  smap2raster inputFile group dataset w
  = (mkWorld (files w) (trace w ++ read_events inputFile group dataset),
     Raised IndexError).
Proof.
  intros Hfile Hdims. eval_reads Hfile. rewrite bind_lift.
  destruct (contents !! (group ++ "/" ++ dataset)%string) as [data|] eqn:Hdata;
    cbn [np_array np_shape]; unfold tuple_index; [|reflexivity].
  specialize (Hdims data eq_refl).
  destruct (shape data) as [|r [|c rest]]; cbn [length] in Hdims; try lia; reflexivity.
Qed.

(** X9. With the dataset in order, a coordinate array that is present but
    has no element ends the call with ValueError at the [min()] of that
    array, before any raster is made. *)
Theorem smap2raster_empty_coordinates w inputFile group dataset
    contents data num_rows num_cols :
  files w !! resolve inputFile = Some (H5 contents) ->
  contents !! (group ++ "/" ++ dataset)%string = Some data ->
  shape data !! 0%nat = Some num_rows ->
  shape data !! 1%nat = Some num_cols ->
  (exists a, contents !! "cell_lon" = Some a /\ elems a = [])
  \/ (exists a, contents !! "cell_lat" = Some a /\ elems a = []) ->
  smap2raster inputFile group dataset w
  = (mkWorld (files w) (trace w ++ read_events inputFile group dataset),
     Raised ValueError).
Proof.
  intros Hfile Hdata Hrows Hcols Hempty. eval_reads Hfile.
  eval_shape Hdata Hrows Hcols.
  destruct (contents !! "cell_lon") as [lon|] eqn:Hlon;
    destruct (contents !! "cell_lat") as [lat|] eqn:Hlat;
    cbn [np_array np_min np_max np_reduce];
    try (destruct (elems lon) as [|x xs] eqn:Hex);
    try (destruct (elems lat) as [|y ys] eqn:Hey);
    repeat (rewrite bind_lift; cbn [py_sub rbind]);
    try reflexivity;
    exfalso; destruct Hempty as [(a & Ha & He) | (a & Ha & He)]; congruence.
Qed.

(** X10. With the dataset in order, a coordinate array that is missing from
    the top level of the file, and none that is empty, ends the call with
    TypeError at the subtraction of the extremes, which are [None]; no
    raster is made. *)
Theorem smap2raster_missing_coordinates w inputFile group dataset
    contents data num_rows num_cols :
  files w !! resolve inputFile = Some (H5 contents) ->
  contents !! (group ++ "/" ++ dataset)%string = Some data ->
  shape data !! 0%nat = Some num_rows ->
  shape data !! 1%nat = Some num_cols ->
  contents !! "cell_lon" = None \/ contents !! "cell_lat" = None ->
  (forall a, contents !! "cell_lon" = Some a -> elems a <> []) ->
  (forall a, contents !! "cell_lat" = Some a -> elems a <> []) ->
  smap2raster inputFile group dataset w
  = (mkWorld (files w) (trace w ++ read_events inputFile group dataset),
     Raised TypeError).
Proof.
  intros Hfile Hdata Hrows Hcols Hmiss Hlon_ne Hlat_ne. eval_reads Hfile.
  eval_shape Hdata Hrows Hcols.
  destruct (contents !! "cell_lon") as [lon|] eqn:Hlon;
    destruct (contents !! "cell_lat") as [lat|] eqn:Hlat;
    cbn [np_array np_min np_max np_reduce];
    try (destruct (elems lon) as [|x xs] eqn:Hex);
    try (destruct (elems lat) as [|y ys] eqn:Hey);
    repeat (rewrite bind_lift; cbn [py_sub rbind]);
    try reflexivity;
    exfalso;
    first [ destruct Hmiss; congruence
          | eapply Hlon_ne; [reflexivity | eassumption]
          | eapply Hlat_ne; [reflexivity | eassumption] ].
Qed.

(** X11. A dataset with no rows or no columns gets no raster: the driver
    refuses the size and returns [None], and the call ends with
    AttributeError at [raster.SetGeoTransform], the directory as before. *)
Theorem smap2raster_zero_size w inputFile group dataset
    contents data cell_lat cell_lon num_rows num_cols :
  files w !! resolve inputFile = Some (H5 contents) ->
  contents !! (group ++ "/" ++ dataset)%string = Some data ->
  shape data !! 0%nat = Some num_rows ->
  shape data !! 1%nat = Some num_cols ->
  contents !! "cell_lat" = Some cell_lat -> elems cell_lat <> [] ->
  contents !! "cell_lon" = Some cell_lon -> elems cell_lon <> [] ->
  Z.of_nat num_rows <= 2 ^ 31 - 1 -> Z.of_nat num_cols <= 2 ^ 31 - 1 ->
  num_rows = 0%nat \/ num_cols = 0%nat ->
  smap2raster inputFile group dataset w
  = (mkWorld (files w) (trace w ++ read_events inputFile group dataset),
     Raised AttributeError).
Proof.
  intros Hfile Hdata Hrows Hcols Hlat Helat Hlon Helon Hr Hc Hzero. eval_reads Hfile.
  eval_shape Hdata Hrows Hcols.
  rewrite Hlon, Hlat. cbn [np_array np_min np_max np_reduce].
  destruct (elems cell_lon) as [|x xs]; [congruence|].
  destruct (elems cell_lat) as [|y ys]; [congruence|].
  do 6 (rewrite bind_lift; cbn [py_sub rbind]).
  rewrite !int_of_float_of_nat by lia.
  unfold bind at 1, driver_Create at 1.
  change (GetDriverByName "GTiff") with (Some GTiffDriver). cbv iota.
  rewrite !c_int_true by lia. cbn [andb negb].
  replace ((0 <? Z.of_nat num_cols) && (0 <? Z.of_nat num_rows) && (0 <? 1)) with false.
  - reflexivity.
  - symmetry. destruct Hzero as [-> | ->]; cbn [Z.of_nat Z.ltb Z.compare];
      rewrite ?andb_false_r; reflexivity.
Qed.

(** The call up to the writing of the band, for a dataset with two
    dimensions at least, of a size the driver accepts, proper coordinate
    arrays, and a raster name a file can be created under. *)
Lemma smap2raster_upto_write w inputFile group dataset
    contents data cell_lat cell_lon num_rows num_cols :
  files w !! resolve inputFile = Some (H5 contents) ->
  contents !! (group ++ "/" ++ dataset)%string = Some data ->
  shape data !! 0%nat = Some num_rows ->
  shape data !! 1%nat = Some num_cols ->
  contents !! "cell_lat" = Some cell_lat -> elems cell_lat <> [] ->
  contents !! "cell_lon" = Some cell_lon -> elems cell_lon <> [] ->
  0 < Z.of_nat num_rows <= 2 ^ 31 - 1 -> 0 < Z.of_nat num_cols <= 2 ^ 31 - 1 ->
  creatable (raster_name dataset) = true ->
  exists gt,
    expected_geotransform cell_lon cell_lat num_rows num_cols = Some gt
    /\ smap2raster inputFile group dataset w
       = bind (WriteArray (Some (raster_name dataset)) 1 (NpArr data))
              (fun _ => h5_close inputFile)
           (mkWorld
              (<[resolve (raster_name dataset) :=
                   GTiff (raster_of (Z.of_nat num_cols) (Z.of_nat num_rows) gt None)]>
                 (files w))
              (trace w ++ read_events inputFile group dataset
                       ++ raster_events dataset (Z.of_nat num_cols) (Z.of_nat num_rows) gt)).
Proof.
  intros Hfile Hdata Hrows Hcols Hlat Helat Hlon Helon Hr Hc Hcreat.
  destruct (elems cell_lon) as [|x xs] eqn:Hex; [congruence|].
  destruct (elems cell_lat) as [|y ys] eqn:Hey; [congruence|].
  eexists. split.
  { unfold expected_geotransform, array_min, array_max. rewrite Hex, Hey. reflexivity. }
  eval_reads Hfile. eval_shape Hdata Hrows Hcols.
  rewrite Hlon, Hlat. cbn [np_array np_min np_max np_reduce]. rewrite Hex, Hey.
  do 6 (rewrite bind_lift; cbn [py_sub rbind]).
  rewrite !int_of_float_of_nat by lia.
  unfold bind at 1, driver_Create at 1.
  change (GetDriverByName "GTiff") with (Some GTiffDriver). cbv iota.
  rewrite !c_int_true by lia. cbn [andb negb].
  replace (0 <? Z.of_nat num_cols) with true by (symmetry; apply Z.ltb_lt; lia).
  replace (0 <? Z.of_nat num_rows) with true by (symmetry; apply Z.ltb_lt; lia).
  change ((0 <? 1)) with true. rewrite Hcreat. cbn [andb].
  change (replicate (Z.to_nat 1) None) with [@None (ndarray F)].
  unfold bind at 1, SetGeoTransform at 1, update_raster at 1.
  cbn [files log write_file trace RasterXSize RasterYSize DataType GeoTransform Projection Bands].
  rewrite lookup_insert_eq.
  unfold bind at 1, SetProjection at 1, update_raster at 1.
  cbn [files log write_file trace RasterXSize RasterYSize DataType GeoTransform Projection Bands].
  rewrite lookup_insert_eq.
  cbn [files log write_file trace RasterXSize RasterYSize DataType GeoTransform Projection Bands].
  f_equal. unfold log, write_file, Smap.raster_of, Smap.raster_events.
  cbn [files trace]. rewrite !insert_insert_eq, <- !app_assoc. reflexivity.
Qed.

(** X12. A dataset with more than two dimensions, under a raster name a
    file can be created at, leaves a raster behind and still fails: the
    raster is made from the first two dimensions, in the place of whatever
    file its name reached, georeferenced and given its projection, and then
    the call ends with ValueError at [WriteArray], the band unwritten. *)
Theorem smap2raster_extra_dimensions w inputFile group dataset
    contents data cell_lat cell_lon num_rows num_cols depth more :
  files w !! resolve inputFile = Some (H5 contents) ->
  contents !! (group ++ "/" ++ dataset)%string = Some data ->
  shape data = num_rows :: num_cols :: depth :: more ->
  contents !! "cell_lat" = Some cell_lat -> elems cell_lat <> [] ->
  contents !! "cell_lon" = Some cell_lon -> elems cell_lon <> [] ->
  0 < Z.of_nat num_rows <= 2 ^ 31 - 1 -> 0 < Z.of_nat num_cols <= 2 ^ 31 - 1 ->
  creatable (raster_name dataset) = true ->
  exists gt,
    expected_geotransform cell_lon cell_lat num_rows num_cols = Some gt
    /\ smap2raster inputFile group dataset w
       = (mkWorld
            (<[resolve (raster_name dataset) :=
                 GTiff (raster_of (Z.of_nat num_cols) (Z.of_nat num_rows) gt None)]>
               (files w))
            (trace w ++ read_events inputFile group dataset
                     ++ raster_events dataset (Z.of_nat num_cols) (Z.of_nat num_rows) gt),
          Raised ValueError).
Proof.
  intros Hfile Hdata Hshape Hlat Helat Hlon Helon Hr Hc Hcreat.
  destruct (smap2raster_upto_write w inputFile group dataset contents data
              cell_lat cell_lon num_rows num_cols) as (gt & Hgt & Hrun); try assumption.
  { rewrite Hshape. reflexivity. }
  { rewrite Hshape. reflexivity. }
  exists gt. split; [exact Hgt|]. rewrite Hrun.
  unfold bind at 1, WriteArray at 1. cbn [files]. rewrite lookup_insert_eq.
  match goal with |- context [if negb ?c then _ else _] =>
    change (negb c) with false end.
  cbv beta iota. rewrite Hshape. reflexivity.
Qed.

(** ** More about [smap2raster]: what a call that completes has done *)

(** X13. On a ready input the call completes, and the raster it leaves has
    the number of columns and rows of the dataset as its width and height
    and, as its one band, the dataset with every element converted to
    Float32; every file the raster name does not reach is as before. *)
Theorem smap2raster_writes_dataset w inputFile group dataset
    contents data cell_lat cell_lon num_rows num_cols :
  call_ready w inputFile group dataset contents data cell_lat cell_lon num_rows num_cols ->
  exists gt r,
    expected_geotransform cell_lon cell_lat num_rows num_cols = Some gt
    /\ snd (smap2raster inputFile group dataset w) = Ok tt
    /\ files (fst (smap2raster inputFile group dataset w)) !! resolve (raster_name dataset)
       = Some (GTiff r)
    /\ RasterXSize r = Z.of_nat num_cols
    /\ RasterYSize r = Z.of_nat num_rows
    /\ DataType r = GDT_Float32
    /\ Bands r = [Some (mk_ndarray (shape data) (map (gdal_cast GDT_Float32) (elems data)))]
    /\ GeoTransform r = Some gt
    /\ forall p, p <> resolve (raster_name dataset) ->
         files (fst (smap2raster inputFile group dataset w)) !! p = files w !! p.
Proof.
  intros Hready.
  destruct (smap2raster_ready _ _ _ _ _ _ _ _ _ _ Hready) as (gt & Hgt & Hrun).
  exists gt. eexists. rewrite Hrun. cbn [fst snd files].
  split; [exact Hgt|]. split; [reflexivity|].
  split; [apply lookup_insert_eq|].
  repeat split.
  intros p Hp. apply lookup_insert_ne. congruence.
Qed.

(** X14. A call completes only on such an input: the dataset is there and
    has exactly two dimensions, both coordinate arrays are there and not
    empty, the sizes handed to the driver are positive C ints, and a file
    can be created under the raster name; with dimensions below 2^53 the
    input is a ready one. *)
Theorem smap2raster_completes_only_if w inputFile group dataset :
  snd (smap2raster inputFile group dataset w) = Ok tt ->
  exists contents data cell_lat cell_lon num_rows num_cols,
    files w !! resolve inputFile = Some (H5 contents)
    /\ contents !! (group ++ "/" ++ dataset)%string = Some data
    /\ contents !! "cell_lat" = Some cell_lat
    /\ contents !! "cell_lon" = Some cell_lon
    /\ shape data = [num_rows; num_cols]
    /\ elems cell_lat <> [] /\ elems cell_lon <> []
    /\ 0 < int_of_float (float_of_nat num_cols) <= 2 ^ 31 - 1
    /\ 0 < int_of_float (float_of_nat num_rows) <= 2 ^ 31 - 1
    /\ creatable (raster_name dataset) = true
    /\ (Z.of_nat num_rows < 2 ^ 53 -> Z.of_nat num_cols < 2 ^ 53 ->
        call_ready w inputFile group dataset
          contents data cell_lat cell_lon num_rows num_cols).
Proof.
  intros Hok.
  pose proof (run_outcome w inputFile group dataset) as Hout.
  rewrite Hok in Hout. inversion Hout
    as [ | contents data cell_lat cell_lon num_rows num_cols gt w'' res'
           Hfile Hdata Hlat Hlon Hrows Hcols Hgt xsize ysize Hxs Hys Hcreat Hcase ].
  destruct Hcase as [(_ & Hshape & _) | (Hbad & _)]; [|discriminate Hbad].
  destruct (expected_geotransform_Some _ _ _ _ _ Hgt)
    as (xmin & xmax & ymin & ymax & Hxmin & _ & Hymin & _).
  assert (Helon : elems cell_lon <> []).
  { unfold array_min in Hxmin. intros He. rewrite He in Hxmin. discriminate Hxmin. }
  assert (Helat : elems cell_lat <> []).
  { unfold array_min in Hymin. intros He. rewrite He in Hymin. discriminate Hymin. }
  exists contents, data, cell_lat, cell_lon, num_rows, num_cols.
  repeat split; try assumption; try (subst xsize ysize; lia).
  - subst xsize. rewrite int_of_float_of_nat in Hxs by assumption. lia.
  - subst xsize. rewrite int_of_float_of_nat in Hxs by assumption. lia.
  - subst ysize. rewrite int_of_float_of_nat in Hys by assumption. lia.
  - subst ysize. rewrite int_of_float_of_nat in Hys by assumption. lia.
Qed.

(** X15. There is no [try] around the body: the HDF5 file is closed
    exactly when the call returns normally.  A call that raises after the
    open leaves the file open. *)
Theorem smap2raster_closes_iff_completes w inputFile group dataset :
  (forall name,
     EvClose name ∈ new_events w (fst (smap2raster inputFile group dataset w))
     <-> name = inputFile /\ snd (smap2raster inputFile group dataset w) = Ok tt)
  /\ (is_Raised (snd (smap2raster inputFile group dataset w)) ->
      new_events w (fst (smap2raster inputFile group dataset w)) <> [] ->
      EvOpen inputFile mode_r
        ∈ new_events w (fst (smap2raster inputFile group dataset w))).
Proof.
  destruct (outcome_events _ _ _ _ _ _ (run_outcome w inputFile group dataset))
    as [(_ & Hev & [e Hres])
       | (contents & data & cell_lat & cell_lon & num_rows & num_cols & gt & band & tail
          & _ & _ & _ & _ & _ & _ & _ & _ & Hev & Hcase)].
  - split.
    + intros name. split.
      * intros Hin. destruct Hev as [Hev | Hev]; rewrite Hev in Hin;
          unfold read_events in Hin; event_cases Hin; discriminate Hin.
      * intros [_ Hok]. rewrite Hok in Hres. discriminate Hres.
    + intros _ Hne. destruct Hev as [Hev | Hev]; [contradiction|].
      rewrite Hev. apply list_elem_of_here.
  - split.
    + intros name. rewrite Hev. split.
      * intros Hin.
        destruct Hcase as [(Hok & _ & _ & ->) | (_ & _ & ->)];
          unfold read_events, Smap.raster_events, write_events in Hin;
          event_cases Hin; try discriminate Hin.
        injection Hin as ->. auto.
      * intros [-> Hok].
        destruct Hcase as [(_ & _ & _ & ->) | (Hbad & _)];
          [|rewrite Hok in Hbad; discriminate Hbad].
        rewrite !elem_of_app. right. right. unfold write_events.
        apply list_elem_of_further, list_elem_of_here.
    + intros _ _. rewrite Hev. apply elem_of_app. left. apply list_elem_of_here.
Qed.

(** ** Calls one after another *)

Lemma string_length_append (s t : string) :
  String.length (String.append s t) = (String.length s + String.length t)%nat.
Proof. induction s as [|a s IH]; simpl; [reflexivity | rewrite IH; reflexivity]. Qed.

(** Two strings with a common ending that are equal have equal
    beginnings. *)
Lemma string_append_inj_l (s1 s2 t : string) :
  String.append s1 t = String.append s2 t -> s1 = s2.
Proof.
  revert s2. induction s1 as [|a s1 IH]; intros [|b s2] Heq.
  - reflexivity.
  - apply (f_equal String.length) in Heq.
    rewrite (string_length_append "" t), (string_length_append (String b s2) t) in Heq.
    simpl in Heq. lia.
  - apply (f_equal String.length) in Heq.
    rewrite (string_length_append "" t), (string_length_append (String a s1) t) in Heq.
    simpl in Heq. lia.
  - change (String a (String.append s1 t) = String b (String.append s2 t)) in Heq.
    injection Heq as -> Heq. f_equal. apply IH, Heq.
Qed.

(** X16. The raster name determines the dataset name: two different
    dataset names give two different raster names.  (Whether two different
    names reach two different files is the file system's matter.) *)
Theorem raster_name_inj (dataset1 dataset2 : string) :
  dataset1 <> dataset2 -> raster_name dataset1 <> raster_name dataset2.
Proof.
  intros Hdiff Heq. apply Hdiff. unfold raster_name in Heq.
  eapply string_append_inj_l, Heq.
Qed.

(** A ready input is still ready after a call that made another file. *)
Lemma call_ready_elsewhere w w1 inputFile group dataset
    contents data cell_lat cell_lon num_rows num_cols :
  files w1 !! resolve inputFile = files w !! resolve inputFile ->
  call_ready w inputFile group dataset contents data cell_lat cell_lon num_rows num_cols ->
  call_ready w1 inputFile group dataset contents data cell_lat cell_lon num_rows num_cols.
Proof.
  intros Hsame (Hfile & Hrest). split; [|exact Hrest]. rewrite Hsame. exact Hfile.
Qed.

(** X17. Converting a dataset again changes nothing in the files: on a
    ready input whose raster name does not reach the input file, a second
    call completes too and leaves the very files the first one left. *)
Theorem smap2raster_again w inputFile group dataset
    contents data cell_lat cell_lon num_rows num_cols :
  call_ready w inputFile group dataset contents data cell_lat cell_lon num_rows num_cols ->
  resolve inputFile <> resolve (raster_name dataset) ->
  let w1 := fst (smap2raster inputFile group dataset w) in
  snd (smap2raster inputFile group dataset w1) = Ok tt
  /\ files (fst (smap2raster inputFile group dataset w1)) = files w1.
Proof.
  intros Hready Hne w1.
  destruct (smap2raster_ready _ _ _ _ _ _ _ _ _ _ Hready) as (gt & Hgt & Hrun).
  assert (Hready1 : call_ready w1 inputFile group dataset
                      contents data cell_lat cell_lon num_rows num_cols).
  { eapply call_ready_elsewhere; [|exact Hready].
    subst w1. rewrite Hrun. cbn [fst files]. apply lookup_insert_ne. congruence. }
  destruct (smap2raster_ready _ _ _ _ _ _ _ _ _ _ Hready1) as (gt1 & Hgt1 & Hrun1).
  rewrite Hgt in Hgt1. injection Hgt1 as <-.
  rewrite Hrun1. cbn [fst snd files]. split; [reflexivity|].
  subst w1. rewrite Hrun. cbn [fst files]. apply insert_insert_eq.
Qed.

(** X18. Conversions of two datasets do not disturb each other: on an
    input ready for both, the input file and the two rasters being three
    different files, both orders of the two calls complete and leave the
    same files. *)
Theorem smap2raster_commute w inputFile group dataset1 dataset2
    contents data1 data2 cell_lat cell_lon rows1 cols1 rows2 cols2 :
  call_ready w inputFile group dataset1 contents data1 cell_lat cell_lon rows1 cols1 ->
  call_ready w inputFile group dataset2 contents data2 cell_lat cell_lon rows2 cols2 ->
  resolve inputFile <> resolve (raster_name dataset1) ->
  resolve inputFile <> resolve (raster_name dataset2) ->
  resolve (raster_name dataset1) <> resolve (raster_name dataset2) ->
  let w12 := smap2raster inputFile group dataset2
               (fst (smap2raster inputFile group dataset1 w)) in
  let w21 := smap2raster inputFile group dataset1
               (fst (smap2raster inputFile group dataset2 w)) in
  snd w12 = Ok tt /\ snd w21 = Ok tt /\ files (fst w12) = files (fst w21).
Proof.
  intros Hready1 Hready2 Hne1 Hne2 Hdiff w12 w21.
  destruct (smap2raster_ready _ _ _ _ _ _ _ _ _ _ Hready1) as (gt1 & Hgt1 & Hrun1).
  destruct (smap2raster_ready _ _ _ _ _ _ _ _ _ _ Hready2) as (gt2 & Hgt2 & Hrun2).
  assert (Hready2' : call_ready (fst (smap2raster inputFile group dataset1 w))
                       inputFile group dataset2
                       contents data2 cell_lat cell_lon rows2 cols2).
  { eapply call_ready_elsewhere; [|exact Hready2].
    rewrite Hrun1. cbn [fst files]. apply lookup_insert_ne. congruence. }
  assert (Hready1' : call_ready (fst (smap2raster inputFile group dataset2 w))
                       inputFile group dataset1
                       contents data1 cell_lat cell_lon rows1 cols1).
  { eapply call_ready_elsewhere; [|exact Hready1].
    rewrite Hrun2. cbn [fst files]. apply lookup_insert_ne. congruence. }
  destruct (smap2raster_ready _ _ _ _ _ _ _ _ _ _ Hready2') as (gt2' & Hgt2' & Hrun12).
  destruct (smap2raster_ready _ _ _ _ _ _ _ _ _ _ Hready1') as (gt1' & Hgt1' & Hrun21).
  rewrite Hgt2 in Hgt2'. injection Hgt2' as <-.
  rewrite Hgt1 in Hgt1'. injection Hgt1' as <-.
  subst w12 w21. rewrite Hrun12, Hrun21. cbn [fst snd files].
  split; [reflexivity|]. split; [reflexivity|].
  rewrite Hrun1, Hrun2. cbn [fst files].
  apply insert_insert_ne. congruence.
Qed.

(** ** More about the loop *)

(** What one call adds to the trace and may change in the directory. *)
Lemma call_summary w inputFile group dataset :
  exists evs,
    trace (fst (smap2raster inputFile group dataset w)) = trace w ++ evs
    /\ ((created_names evs = []
         /\ files (fst (smap2raster inputFile group dataset w)) = files w
         /\ is_Raised (snd (smap2raster inputFile group dataset w)))
        \/ (created_names evs = [raster_name dataset]
            /\ forall p, p <> resolve (raster_name dataset) ->
                 files (fst (smap2raster inputFile group dataset w)) !! p = files w !! p)).
Proof.
  pose proof (run_outcome w inputFile group dataset) as Hout.
  inversion Hout
    as [ w'' e Hfiles Htrace Hw Hres
       | contents data cell_lat cell_lon num_rows num_cols gt w'' res'
           Hfile Hdata Hlat Hlon Hrows Hcols Hgt xsize ysize Hxs Hys Hcreat Hcase Hw Hres ].
  - destruct Htrace as [Htr | Htr].
    + exists []. rewrite app_nil_r. split; [exact Htr|]. left.
      split; [reflexivity|]. split; [exact Hfiles | eexists; reflexivity].
    + eexists. split; [exact Htr|]. left.
      split; [reflexivity|]. split; [exact Hfiles | eexists; reflexivity].
  - destruct Hcase as [(_ & _ & Hw') | (_ & Hw')]; rewrite Hw'; cbn [trace files];
      eexists; (split; [reflexivity|]); right; (split; [reflexivity|]);
      intros p Hp; apply lookup_insert_ne; congruence.
Qed.

(** The loop on any list and any directory, by induction on the list. *)
Lemma datasets_loop_summary file_path which_group datasets : forall w,
  exists k evs,
    (k <= length datasets)%nat
    /\ trace (fst (datasets_loop file_path which_group datasets w)) = trace w ++ evs
    /\ created_names evs = map raster_name (take k datasets)
    /\ (snd (datasets_loop file_path which_group datasets w) = Ok tt ->
        k = length datasets)
    /\ forall p, p ∉ map (fun name => resolve (raster_name name)) (take k datasets) ->
         files (fst (datasets_loop file_path which_group datasets w)) !! p = files w !! p.
Proof.
  induction datasets as [|name rest IH]; intros w.
  - exists 0%nat, []. rewrite datasets_loop_nil, app_nil_r. cbn. auto.
  - rewrite datasets_loop_cons.
    destruct (call_summary w file_path which_group name) as (evs1 & Htr1 & Hcase).
    destruct (smap2raster file_path which_group name w) as [w1 [[]|e]] eqn:Hrun;
      cbn [fst snd] in *.
    + destruct Hcase as [(_ & _ & [e He]) | (Hcreated & Hframe1)]; [discriminate He|].
      destruct (IH w1) as (k & evs & Hk & Htr & Hcr & Hok & Hframe).
      exists (S k), (evs1 ++ evs). cbn [length take map].
      split; [lia|].
      split; [rewrite Htr, Htr1, app_assoc; reflexivity|].
      split; [rewrite created_names_app, Hcreated, Hcr; reflexivity|].
      split; [intros Hres; rewrite (Hok Hres); reflexivity|].
      intros p Hp. apply not_elem_of_cons in Hp as [Hp1 Hp2].
      rewrite (Hframe p Hp2). apply Hframe1, Hp1.
    + destruct Hcase as [(Hcreated & Hfiles & _) | (Hcreated & Hframe1)].
      * exists 0%nat, evs1. cbn [length take map].
        split; [lia|]. split; [exact Htr1|]. split; [exact Hcreated|].
        split; [discriminate|]. intros p _. rewrite Hfiles. reflexivity.
      * exists 1%nat, evs1. cbn [length take map].
        split; [lia|]. split; [exact Htr1|].
        split; [rewrite take_0; exact Hcreated|].
        split; [discriminate|].
        intros p Hp. rewrite take_0 in Hp. cbn [map] in Hp.
        apply not_elem_of_cons in Hp as [Hp1 _]. apply Hframe1, Hp1.
Qed.

(** X19. Whatever the list and the files, the rasters the loop makes are
    those of an initial part of the list, one each and in list order: no
    name is skipped, none is converted out of turn, and the whole list is
    converted when the loop completes. *)
Theorem datasets_loop_prefix w file_path which_group datasets :
  exists k,
    (k <= length datasets)%nat
    /\ created_names
         (new_events w (fst (datasets_loop file_path which_group datasets w)))
       = map raster_name (take k datasets)
    /\ (snd (datasets_loop file_path which_group datasets w) = Ok tt ->
        k = length datasets).
Proof.
  destruct (datasets_loop_summary file_path which_group datasets w)
    as (k & evs & Hk & Htr & Hcr & Hok & _).
  exists k. rewrite (new_events_trace _ _ _ Htr). auto.
Qed.


(** X21. The loop on a list made of two parts is the loop on the first
    part followed, unless that raised, by the loop on the second. *)
Theorem datasets_loop_app w file_path which_group datasets1 datasets2 :
  datasets_loop file_path which_group (datasets1 ++ datasets2) w
  = match datasets_loop file_path which_group datasets1 w with
    | (w1, Ok _) => datasets_loop file_path which_group datasets2 w1
    | (w1, Raised e) => (w1, Raised e)
    end.
Proof.
  revert w. induction datasets1 as [|name rest IH]; intros w.
  - rewrite datasets_loop_nil. reflexivity.
  - cbn [app]. rewrite !datasets_loop_cons.
    destruct (smap2raster file_path which_group name w) as [w1 [[]|e]]; [|reflexivity].
    apply IH.
Qed.

(** ** More about file names *)

(** X22. A raster name no file can be created under (a dataset name with a
    group part, when the working directory has no folder of that name) gets
    no raster: the driver returns [None], and the call ends with
    AttributeError at [raster.SetGeoTransform], the files as before. *)
Theorem smap2raster_uncreatable w inputFile group dataset
    contents data cell_lat cell_lon num_rows num_cols :
  files w !! resolve inputFile = Some (H5 contents) ->
  contents !! (group ++ "/" ++ dataset)%string = Some data ->
  shape data !! 0%nat = Some num_rows ->
  shape data !! 1%nat = Some num_cols ->
  contents !! "cell_lat" = Some cell_lat -> elems cell_lat <> [] ->
  contents !! "cell_lon" = Some cell_lon -> elems cell_lon <> [] ->
  Z.of_nat num_rows <= 2 ^ 31 - 1 -> Z.of_nat num_cols <= 2 ^ 31 - 1 ->
  creatable (raster_name dataset) = false ->
  smap2raster inputFile group dataset w
  = (mkWorld (files w) (trace w ++ read_events inputFile group dataset),
     Raised AttributeError).
Proof.
  intros Hfile Hdata Hrows Hcols Hlat Helat Hlon Helon Hr Hc Hcreat. eval_reads Hfile.
  eval_shape Hdata Hrows Hcols.
  rewrite Hlon, Hlat. cbn [np_array np_min np_max np_reduce].
  destruct (elems cell_lon) as [|x xs]; [congruence|].
  destruct (elems cell_lat) as [|y ys]; [congruence|].
  do 6 (rewrite bind_lift; cbn [py_sub rbind]).
  rewrite !int_of_float_of_nat by lia.
  unfold bind at 1, driver_Create at 1.
  change (GetDriverByName "GTiff") with (Some GTiffDriver). cbv iota.
  rewrite !c_int_true by lia. cbn [andb negb].
  rewrite Hcreat, andb_false_r. reflexivity.
Qed.

(** X23. When the raster name reaches the input file, a call on an input
    that is ready otherwise completes and has put the raster in the place of
    the input file; a second call then fails at the open, and changes
    nothing. *)
Theorem smap2raster_replaces_input w inputFile group dataset
    contents data cell_lat cell_lon num_rows num_cols :
  call_ready w inputFile group dataset contents data cell_lat cell_lon num_rows num_cols ->
  resolve (raster_name dataset) = resolve inputFile ->
  let w1 := fst (smap2raster inputFile group dataset w) in
  snd (smap2raster inputFile group dataset w) = Ok tt
  /\ (exists r, files w1 !! resolve inputFile = Some (GTiff r)
                /\ Bands r = [Some (cast_array GDT_Float32 data)])
  /\ smap2raster inputFile group dataset w1 = (w1, Raised OSError).
Proof.
  intros Hready Heq w1.
  destruct (smap2raster_ready _ _ _ _ _ _ _ _ _ _ Hready) as (gt & Hgt & Hrun).
  assert (Hw1 : files w1 !! resolve inputFile
                = Some (GTiff (raster_of (Z.of_nat num_cols) (Z.of_nat num_rows) gt
                                 (Some (cast_array GDT_Float32 data))))).
  { subst w1. rewrite Hrun. cbn [fst files]. rewrite <- Heq. apply lookup_insert_eq. }
  split; [rewrite Hrun; reflexivity|].
  split; [eexists; split; [exact Hw1 | reflexivity]|].
  unfold Smap.smap2raster. unfold bind at 1, h5py_File at 1. rewrite Hw1. reflexivity.
Qed.

End WithFloat.

(** ** The conversion on explicit files *)

#[local] Existing Instance flat_directory.

Local Abbreviation q_smap2raster :=
  (Smap.smap2raster (F := Q) (FS := flat_directory) epsg_wkt).
Local Abbreviation q_datasets_loop :=
  (Smap.datasets_loop (F := Q) (FS := flat_directory) epsg_wkt).

(** The two names of the notebook, on the sample file. *)
Lemma sample_ready : loop_ready sample_world file_path which_group datasets.
Proof.
  intros name Hin. unfold datasets in Hin.
  apply elem_of_cons in Hin as [-> | Hin];
    [|apply list_elem_of_singleton in Hin as ->].
  - split; [intros Heq; vm_compute in Heq; discriminate Heq|].
    exists sample_h5,
      (mk_ndarray [2; 3]%nat [1 # 2; 1 # 4; 3 # 4; 1 # 8; 3 # 8; 5 # 8]%Q),
      (mk_ndarray [2; 3]%nat [41; 41; 41; 40; 40; 40]%Q),
      (mk_ndarray [2; 3]%nat [-106; -105; -104; -106; -105; -104]%Q), 2%nat, 3%nat.
    repeat split; try (vm_compute; reflexivity); try discriminate; lia.
  - split; [intros Heq; vm_compute in Heq; discriminate Heq|].
    exists sample_h5,
      (mk_ndarray [2; 3]%nat [280; 281; 282; 283; 284; 285]%Q),
      (mk_ndarray [2; 3]%nat [41; 41; 41; 40; 40; 40]%Q),
      (mk_ndarray [2; 3]%nat [-106; -105; -104; -106; -105; -104]%Q), 2%nat, 3%nat.
    repeat split; try (vm_compute; reflexivity); try discriminate; lia.
Defined.

Lemma datasets_loop_makes_rasters_witness :
  exists w',
    q_datasets_loop file_path which_group datasets sample_world = (w', Ok tt)
    /\ (forall w0, q_datasets_loop file_path which_group datasets w0
                   = for_each datasets (q_smap2raster file_path which_group) w0)
    /\ created_names (new_events sample_world w') = map raster_name datasets
    /\ h5_reads (new_events sample_world w')
       = concat (map (fun name => [(which_group ++ "/" ++ name)%string;
                                   "cell_lat"; "cell_lon"]) datasets)
    /\ (forall name, name ∈ datasets ->
          exists r, files w' !! resolve (raster_name name) = Some (GTiff r))
    /\ (forall p, p ∉ map (fun name => resolve (raster_name name)) datasets ->
          files w' !! p = files sample_world !! p).
Proof.
  apply (datasets_loop_makes_rasters epsg_wkt sample_world file_path which_group datasets).
  exact sample_ready.
Defined.

(** A name the file does not have stops the loop at once: the first call
    raises before any raster exists, and the second name is never tried. *)
Lemma loop_stops_at_missing_dataset :
  ~ loop_makes_every_raster epsg_wkt sample_world file_path which_group
      ["snow_mass"; "sm_surface_wetness"].
Proof.
  intros [Hcreated _]. vm_compute in Hcreated. discriminate Hcreated.
Qed.

Example loop_raises_at_missing_dataset :
  snd (q_datasets_loop file_path which_group ["snow_mass"; "sm_surface_wetness"]
         sample_world)
  = Raised IndexError.
Proof. vm_compute. reflexivity. Qed.

(** The recorded geotransform of the sample grid: west edge 106 W, cells
    2/3 of a degree wide, north edge 41 N, cells half a degree high. *)
Lemma smap2raster_geotransform_witness :
  exists contents data cell_lon cell_lat num_rows num_cols xmin xmax ymin ymax r,
    files sample_world !! resolve file_path = Some (H5 contents)
    /\ contents !! "cell_lon" = Some cell_lon
    /\ contents !! "cell_lat" = Some cell_lat
    /\ contents !! (which_group ++ "/" ++ "sm_surface_wetness")%string = Some data
    /\ shape data !! 0%nat = Some num_rows
    /\ shape data !! 1%nat = Some num_cols
    /\ (snd (q_smap2raster file_path which_group "sm_surface_wetness" sample_world) = Ok tt ->
        shape data = [num_rows; num_cols])
    /\ array_min cell_lon = Some xmin /\ array_max cell_lon = Some xmax
    /\ array_min cell_lat = Some ymin /\ array_max cell_lat = Some ymax
    /\ "sm_surface_wetnessRaster.tif" = raster_name "sm_surface_wetness"
    /\ ((-106)%Q, 2 # 3, 0%Q, 41%Q, 0%Q, -1 # 2)
       = (xmin, fdiv (fsub xmax xmin) (float_of_nat num_cols), fzero,
          ymax, fzero, fneg (fdiv (fsub ymax ymin) (float_of_nat num_rows)))
    /\ files (fst (q_smap2raster file_path which_group "sm_surface_wetness" sample_world))
         !! resolve (raster_name "sm_surface_wetness")
       = Some (GTiff r)
    /\ GeoTransform r = Some ((-106)%Q, 2 # 3, 0%Q, 41%Q, 0%Q, -1 # 2).
Proof.
  apply (smap2raster_geotransform epsg_wkt sample_world file_path which_group
           "sm_surface_wetness").
  apply (list_elem_of_lookup_2 _ 5%nat). vm_compute. reflexivity.
Defined.

(** A call for a dataset the file does not have creates no raster. *)
Lemma missing_dataset_no_raster :
  ~ call_creates_fixed_raster epsg_wkt sample_world file_path which_group "snow_mass".
Proof.
  intros (_ & r & Hfile & _). vm_compute in Hfile. discriminate Hfile.
Qed.

Lemma smap2raster_created_raster_witness :
  exists contents data num_rows num_cols r,
    files sample_world !! resolve file_path = Some (H5 contents)
    /\ contents !! (which_group ++ "/" ++ "sm_surface_wetness")%string = Some data
    /\ shape data !! 0%nat = Some num_rows
    /\ shape data !! 1%nat = Some num_cols
    /\ files (fst (q_smap2raster file_path which_group "sm_surface_wetness" sample_world))
         !! resolve (raster_name "sm_surface_wetness")
       = Some (GTiff r)
    /\ RasterCount r = 1
    /\ DataType r = GDT_Float32
    /\ Projection r = epsg_wkt (srs_EPSG 4326)
    /\ RasterXSize r = int_of_float (float_of_nat num_cols)
    /\ RasterYSize r = int_of_float (float_of_nat num_rows)
    /\ (Z.of_nat num_cols < 2 ^ 53 -> RasterXSize r = Z.of_nat num_cols)
    /\ (Z.of_nat num_rows < 2 ^ 53 -> RasterYSize r = Z.of_nat num_rows)
    /\ h5_reads (new_events sample_world
                   (fst (q_smap2raster file_path which_group "sm_surface_wetness"
                           sample_world)))
       = [(which_group ++ "/" ++ "sm_surface_wetness")%string; "cell_lat"; "cell_lon"].
Proof.
  apply (smap2raster_created_raster epsg_wkt sample_world file_path which_group
           "sm_surface_wetness").
  apply (list_elem_of_lookup_2 _ 0%nat). vm_compute. reflexivity.
Defined.

(** A three-dimensional dataset: the raster is created, 1 wide and 2 high
    after the first two dimensions, and then the call raises because the
    array is not a band. *)
Example three_dimensional_dataset :
  let run := q_smap2raster file_path which_group "soil_temp_profile" sample_world in
  snd run = Raised ValueError
  /\ created_names (new_events sample_world (fst run)) = ["soil_temp_profileRaster.tif"]
  /\ exists r, files (fst run) !! "soil_temp_profileRaster.tif" = Some (GTiff r)
       /\ RasterXSize r = 1 /\ RasterYSize r = 2 /\ Bands r = [None].
Proof.
  cbv zeta. split; [vm_compute; reflexivity|]. split; [vm_compute; reflexivity|].
  eexists. split; [vm_compute; reflexivity|]. repeat split.
Qed.

(** When the name of the input file reaches the file the raster name
    reaches, the call replaces it: what was an HDF5 file is a raster
    afterwards.  The two names need not be the same string. *)
Lemma aliased_input_overwritten :
  ~ call_keeps_input epsg_wkt aliased_world
      aliased_path which_group "sm_surface_wetness".
Proof.
  intros Hkeep. vm_compute in Hkeep. discriminate Hkeep.
Qed.

Lemma smap2raster_frame_witness :
  files (fst (q_smap2raster file_path which_group "sm_surface_wetness" sample_world))
    !! resolve file_path
  = Some (H5 sample_h5)
  /\ exists evs,
       new_events sample_world
         (fst (q_smap2raster file_path which_group "sm_surface_wetness" sample_world))
       = EvOpen file_path mode_r :: evs ++ [EvClose file_path].
Proof.
  pose proof (smap2raster_frame epsg_wkt sample_world file_path which_group
                "sm_surface_wetness") as (_ & Hclosed & _ & _ & Hinput).
  split.
  - rewrite Hinput; [vm_compute; reflexivity|].
    intros Heq. vm_compute in Heq. discriminate Heq.
  - apply Hclosed. vm_compute. reflexivity.
Defined.

(** ** The further properties on explicit files *)

Lemma sample_ready_wetness :
  call_ready sample_world file_path which_group "sm_surface_wetness"
    sample_h5 wetness_grid lat_grid lon_grid 2 3.
Proof.
  repeat split; try (vm_compute; reflexivity); try discriminate; lia.
Defined.

Lemma sample_ready_layer2 :
  call_ready sample_world file_path which_group "soil_temp_layer2"
    sample_h5 layer2_grid lat_grid lon_grid 2 3.
Proof.
  repeat split; try (vm_compute; reflexivity); try discriminate; lia.
Defined.

Lemma smap2raster_unreadable_witness :
  q_smap2raster file_path which_group "sm_surface_wetness" not_hdf5_world
  = (not_hdf5_world, Raised OSError).
Proof.
  apply (smap2raster_unreadable epsg_wkt).
  intros contents Hfile. vm_compute in Hfile. discriminate Hfile.
Defined.

Lemma smap2raster_no_grid_witness :
  q_smap2raster file_path which_group "snow_mass" sample_world
  = (mkWorld (files sample_world)
       (trace sample_world ++ read_events file_path which_group "snow_mass"),
     Raised IndexError).
Proof.
  apply (smap2raster_no_grid epsg_wkt sample_world file_path which_group
           "snow_mass" sample_h5).
  - vm_compute. reflexivity.
  - intros data Hdata. vm_compute in Hdata. discriminate Hdata.
Defined.

Lemma smap2raster_empty_coordinates_witness :
  q_smap2raster file_path which_group "sm_surface_wetness" empty_lon_world
  = (mkWorld (files empty_lon_world)
       (trace empty_lon_world ++ read_events file_path which_group "sm_surface_wetness"),
     Raised ValueError).
Proof.
  apply (smap2raster_empty_coordinates epsg_wkt empty_lon_world file_path which_group
           "sm_surface_wetness" empty_lon_h5 wetness_grid 2 3);
    try (vm_compute; reflexivity).
  left. exists (mk_ndarray [0]%nat []). split; vm_compute; reflexivity.
Defined.

Lemma smap2raster_missing_coordinates_witness :
  q_smap2raster file_path which_group "sm_surface_wetness" no_lat_world
  = (mkWorld (files no_lat_world)
       (trace no_lat_world ++ read_events file_path which_group "sm_surface_wetness"),
     Raised TypeError).
Proof.
  apply (smap2raster_missing_coordinates epsg_wkt no_lat_world file_path which_group
           "sm_surface_wetness" no_lat_h5 wetness_grid 2 3);
    try (vm_compute; reflexivity).
  - right. vm_compute. reflexivity.
  - intros a Ha. vm_compute in Ha. injection Ha as <-. discriminate.
  - intros a Ha. vm_compute in Ha. discriminate Ha.
Defined.

Lemma smap2raster_zero_size_witness :
  q_smap2raster file_path which_group "no_rows" no_rows_world
  = (mkWorld (files no_rows_world)
       (trace no_rows_world ++ read_events file_path which_group "no_rows"),
     Raised AttributeError).
Proof.
  apply (smap2raster_zero_size epsg_wkt no_rows_world file_path which_group
           "no_rows" no_rows_h5 (mk_ndarray [0; 3]%nat []) lat_grid lon_grid 0 3);
    try (vm_compute; reflexivity); try discriminate; lia.
Defined.

Lemma smap2raster_extra_dimensions_witness :
  exists gt,
    expected_geotransform lon_grid lat_grid 2 1 = Some gt
    /\ q_smap2raster file_path which_group "soil_temp_profile" sample_world
       = (mkWorld
            (<[resolve (raster_name "soil_temp_profile") :=
                 GTiff (Smap.raster_of epsg_wkt 1 2 gt None)]> (files sample_world))
            (trace sample_world
             ++ read_events file_path which_group "soil_temp_profile"
             ++ Smap.raster_events epsg_wkt "soil_temp_profile" 1 2 gt),
          Raised ValueError).
Proof.
  apply (smap2raster_extra_dimensions epsg_wkt sample_world file_path which_group
           "soil_temp_profile" sample_h5 profile_grid lat_grid lon_grid 2 1 3 []);
    try (vm_compute; reflexivity); try discriminate; lia.
Defined.

(** The values 1/10 and 2^24 + 1 are not Float32 numbers: the band keeps
    the nearest ones. *)
Lemma tenths_ready :
  call_ready tenths_world file_path which_group "tenths"
    tenths_h5 tenths_grid lat_grid lon_grid 1 2.
Proof.
  repeat split; try (vm_compute; reflexivity); try discriminate; lia.
Defined.

Lemma smap2raster_writes_dataset_witness :
  exists gt r,
    expected_geotransform lon_grid lat_grid 1 2 = Some gt
    /\ snd (q_smap2raster file_path which_group "tenths" tenths_world) = Ok tt
    /\ files (fst (q_smap2raster file_path which_group "tenths" tenths_world))
         !! resolve (raster_name "tenths")
       = Some (GTiff r)
    /\ RasterXSize r = 2
    /\ RasterYSize r = 1
    /\ DataType r = GDT_Float32
    /\ Bands r = [Some (mk_ndarray [1; 2]%nat [13421773 # 134217728; 16777216 # 1]%Q)]
    /\ GeoTransform r = Some gt
    /\ forall p, p <> resolve (raster_name "tenths") ->
         files (fst (q_smap2raster file_path which_group "tenths" tenths_world)) !! p
         = files tenths_world !! p.
Proof.
  exact (smap2raster_writes_dataset epsg_wkt tenths_world file_path which_group
           "tenths" tenths_h5 tenths_grid lat_grid lon_grid 1 2 tenths_ready).
Defined.

Lemma smap2raster_completes_only_if_witness :
  exists contents data cell_lat cell_lon num_rows num_cols,
    files sample_world !! resolve file_path = Some (H5 contents)
    /\ contents !! (which_group ++ "/" ++ "soil_temp_layer2")%string = Some data
    /\ contents !! "cell_lat" = Some cell_lat
    /\ contents !! "cell_lon" = Some cell_lon
    /\ shape data = [num_rows; num_cols]
    /\ elems cell_lat <> [] /\ elems cell_lon <> []
    /\ 0 < int_of_float (float_of_nat num_cols) <= 2 ^ 31 - 1
    /\ 0 < int_of_float (float_of_nat num_rows) <= 2 ^ 31 - 1
    /\ creatable (raster_name "soil_temp_layer2") = true
    /\ (Z.of_nat num_rows < 2 ^ 53 -> Z.of_nat num_cols < 2 ^ 53 ->
        call_ready sample_world file_path which_group "soil_temp_layer2"
          contents data cell_lat cell_lon num_rows num_cols).
Proof.
  apply (smap2raster_completes_only_if epsg_wkt sample_world file_path which_group
           "soil_temp_layer2").
  vm_compute. reflexivity.
Defined.

Lemma raster_name_inj_witness :
  raster_name "sm_surface_wetness" <> raster_name "soil_temp_layer2".
Proof.
  apply (raster_name_inj "sm_surface_wetness" "soil_temp_layer2"). discriminate.
Defined.

Lemma smap2raster_again_witness :
  let w1 := fst (q_smap2raster file_path which_group "sm_surface_wetness" sample_world) in
  snd (q_smap2raster file_path which_group "sm_surface_wetness" w1) = Ok tt
  /\ files (fst (q_smap2raster file_path which_group "sm_surface_wetness" w1)) = files w1.
Proof.
  apply (smap2raster_again epsg_wkt sample_world file_path which_group
           "sm_surface_wetness" sample_h5 wetness_grid lat_grid lon_grid 2 3).
  - exact sample_ready_wetness.
  - intros Heq. vm_compute in Heq. discriminate Heq.
Defined.

Lemma smap2raster_commute_witness :
  let w12 := q_smap2raster file_path which_group "soil_temp_layer2"
               (fst (q_smap2raster file_path which_group "sm_surface_wetness"
                       sample_world)) in
  let w21 := q_smap2raster file_path which_group "sm_surface_wetness"
               (fst (q_smap2raster file_path which_group "soil_temp_layer2"
                       sample_world)) in
  snd w12 = Ok tt /\ snd w21 = Ok tt /\ files (fst w12) = files (fst w21).
Proof.
  apply (smap2raster_commute epsg_wkt sample_world file_path which_group
           "sm_surface_wetness" "soil_temp_layer2" sample_h5 wetness_grid layer2_grid
           lat_grid lon_grid 2 3 2 3).
  - exact sample_ready_wetness.
  - exact sample_ready_layer2.
  - intros Heq. vm_compute in Heq. discriminate Heq.
  - intros Heq. vm_compute in Heq. discriminate Heq.
  - intros Heq. vm_compute in Heq. discriminate Heq.
Defined.


(** A dataset in a subgroup: its raster name has a folder part, the
    working directory has no such folder, and no raster is made. *)
Lemma smap2raster_uncreatable_witness :
  q_smap2raster file_path which_group "daily/wetness" nested_world
  = (mkWorld (files nested_world)
       (trace nested_world ++ read_events file_path which_group "daily/wetness"),
     Raised AttributeError).
Proof.
  apply (smap2raster_uncreatable epsg_wkt nested_world file_path which_group
           "daily/wetness" nested_h5 wetness_grid lat_grid lon_grid 2 3);
    try (vm_compute; reflexivity); try discriminate; lia.
Defined.

Lemma aliased_ready :
  call_ready aliased_world aliased_path which_group "sm_surface_wetness"
    sample_h5 wetness_grid lat_grid lon_grid 2 3.
Proof.
  repeat split; try (vm_compute; reflexivity); try discriminate; lia.
Defined.

Lemma smap2raster_replaces_input_witness :
  let w1 := fst (q_smap2raster aliased_path which_group "sm_surface_wetness"
                   aliased_world) in
  snd (q_smap2raster aliased_path which_group "sm_surface_wetness" aliased_world) = Ok tt
  /\ (exists r, files w1 !! resolve aliased_path = Some (GTiff r)
                /\ Bands r = [Some (cast_array GDT_Float32 wetness_grid)])
  /\ q_smap2raster aliased_path which_group "sm_surface_wetness" w1 = (w1, Raised OSError).
Proof.
  apply (smap2raster_replaces_input epsg_wkt aliased_world aliased_path which_group
           "sm_surface_wetness" sample_h5 wetness_grid lat_grid lon_grid 2 3).
  - exact aliased_ready.
  - reflexivity.
Defined.

(** The loop of the notebook on that input: the first call puts its raster
    in the place of the input file, and the second cannot open it. *)
Example loop_replaces_aliased_input :
  let run := q_datasets_loop aliased_path which_group datasets aliased_world in
  snd run = Raised OSError
  /\ created_names (new_events aliased_world (fst run)) = ["sm_surface_wetnessRaster.tif"]
  /\ exists r, files (fst run) !! "sm_surface_wetnessRaster.tif" = Some (GTiff r).
Proof.
  cbv zeta. split; [vm_compute; reflexivity|]. split; [vm_compute; reflexivity|].
  eexists. vm_compute. reflexivity.
Qed.

End SmapFacts.
